(** * FastAd: the generation pipeline

    A shallow embedding of the generation pipeline of the FastAd front end:

    - [AIService] (services/openai): [optimizePrompt], [generateImage],
      [generateVideo];
    - the [Generator] page: the [onSubmit] handler with its usage-limit
      guard, the content-item insert and the usage update;
    - the text optimization of the service, [optimizeTextPrompt], and the
      idle callback of the generator page that calls it;
    - the [Library] page: its filters, [deleteItem], [fetchContentItems]
      and [downloadItem].

    TypeScript string-literal unions are inductive types, interfaces are
    records, optional fields are [option]s, [number]s holding counters and
    epoch milliseconds are [Z].  Asynchronous code is sequential here: each
    [await] is a monadic bind.  The monad [Js] threads the state of the
    page and of the store, records the interactions with the outside
    (provider requests, timers, store writes, dialogs) and carries JavaScript
    exceptions, so that [try]/[catch]/[finally] read as in the source. *)

From Stdlib Require Import String Ascii ZArith List Bool Lia DecimalString.
From ExtLib Require Import Structures.Monad Structures.MonadExc
  Structures.MonadState.
Import ListNotations.
Import MonadNotation.
Local Open Scope string_scope.
Local Open Scope Z_scope.
Local Open Scope monad_scope.

(** ** JavaScript values *)

Module JS.

(** Truthiness of a string: only the empty string is falsy. *)
Definition truthy (s : string) : bool :=
  match s with
  | EmptyString => false
  | String _ _ => true
  end.

(** [a || b] on strings. *)
Definition or_string (a b : string) : string :=
  if truthy a then a else b.

(** [a || b] where [a] may be [undefined]. *)
Definition or_undefined (a : option string) (b : string) : string :=
  match a with
  | Some s => or_string s b
  | None => b
  end.

(** Truthiness of a value that is a string or [undefined]. *)
Definition truthy_opt (a : option string) : bool :=
  match a with
  | Some s => truthy s
  | None => false
  end.

(** [n || 0] on numbers: [0] is the only falsy integer. *)
Definition or_zero (n : Z) : Z :=
  if n =? 0 then 0 else n.

(** An integral number inside a template literal, or [n.toString()]. *)
Definition number_toString (n : Z) : string :=
  NilZero.string_of_int (Z.to_int n).

(** [String.prototype.startsWith]. *)
Fixpoint startsWith (s prefix : string) : bool :=
  match prefix, s with
  | EmptyString, _ => true
  | String c p', String d s' => Ascii.eqb c d && startsWith s' p'
  | String _ _, EmptyString => false
  end.

(** [String.prototype.includes]. *)
Fixpoint includes (s needle : string) : bool :=
  startsWith s needle ||
  match s with
  | EmptyString => false
  | String _ s' => includes s' needle
  end.

(** [String.prototype.endsWith]. *)
Fixpoint endsWith (s suffix : string) : bool :=
  String.eqb s suffix ||
  match s with
  | EmptyString => false
  | String _ s' => endsWith s' suffix
  end.

(** The [Error] objects that the runtime and the provider client throw. *)
Record Error := { message : string }.

End JS.

(** ** Types (types/index.ts, services/openai) *)

Inductive Style := realistic | surreal | anime | futuristic.

Inductive Platform :=
  facebook | instagram | youtube | google_ads | twitter | linkedin.

Inductive ContentType := image | video | banner | social.

(** The string a [ContentType] is at run time. *)
Definition ContentType_text (t : ContentType) : string :=
  match t with
  | image => "image"
  | video => "video"
  | banner => "banner"
  | social => "social"
  end.

Definition is_video (t : ContentType) : bool :=
  match t with
  | video => true
  | _ => false
  end.

Record User := { id : string; email : string }.

Inductive SubscriptionStatus := active | canceled | past_due.
Inductive Plan := free | pro | enterprise.

Record Subscription := {
  sub_id : string;
  user_id : string;
  status : SubscriptionStatus;
  plan : Plan;
  current_period_end : string;
  usage_limit : Z;
  current_usage : Z
}.

(** [GenerationOptions]; the optional [dimensions] and [brandKit] are never
    read by the service and are left out. *)
Record GenerationOptions := {
  prompt : string;
  style : Style;
  platform : Platform;
  type : ContentType
}.

Record GenerationResult := {
  success : bool;
  url : option string;
  error : option string;
  result_id : option string
}.

(** The form of the generator page. *)
Record GenerationForm := {
  form_prompt : string;
  form_type : ContentType;
  form_platform : Platform;
  form_style : Style
}.

(** ** AIService.optimizePrompt *)

Definition stylePrompts (s : Style) : string :=
  match s with
  | realistic => "photorealistic, high detail, professional photography"
  | surreal => "surreal, dreamlike, imaginative, artistic"
  | anime => "anime style, Japanese animation, vibrant colors"
  | futuristic => "futuristic, sci-fi, cyberpunk, advanced technology"
  end.

Definition platformPrompts (p : Platform) : string :=
  match p with
  | facebook => "Facebook post optimized, engaging, social media friendly"
  | instagram => "Instagram style, square format, visually appealing"
  | youtube => "YouTube thumbnail, eye-catching, high contrast"
  | google_ads => "Google Ads banner, professional, conversion optimized"
  | twitter => "Twitter card, horizontal format, attention grabbing"
  | linkedin => "LinkedIn professional, business oriented, clean design"
  end.

(** The constant tail of every optimized prompt. *)
Definition marketing_suffix : string :=
  "Professional marketing content, high quality, brand appropriate.".

Definition optimizePrompt (prompt : string) (options : GenerationOptions)
  : string :=
  prompt ++ ". Style: " ++ stylePrompts options.(style)
         ++ ". Platform: " ++ platformPrompts options.(platform)
         ++ ". " ++ marketing_suffix.

(** ** The outside: provider, clock, store *)

(** The request of [openai.images.generate]. *)
Record ImageGenerateParams := {
  model : string;
  request_prompt : string;
  size : string;
  quality : string;
  n : Z
}.

Record Image := {
  image_url : option string;
  revised_prompt : option string
}.

Record ImagesResponse := { data : list Image }.

(** How a promise of the provider client settles. *)
Inductive Settled (A : Type) :=
| Fulfilled (a : A)
| Rejected (e : JS.Error).

Arguments Fulfilled {A} a.
Arguments Rejected {A} e.

(** The object inserted into [content_items].  [created_at] holds the epoch
    milliseconds of the [new Date()] that [toISOString] renders. *)
Record ContentItemInsert := {
  item_user_id : string;
  title : string;
  description : string;
  item_prompt : string;
  item_type : ContentType;
  item_platform : Platform;
  item_style : Style;
  output_url : string;
  created_at : Z
}.

Record PostgrestError := { pg_message : string }.

(** What the collaborators answer.  The store client returns its failures
    in the [error] field of the response, as the page reads them. *)
Record Env := {
  images_generate : ImageGenerateParams -> Settled ImagesResponse;
  clock : nat -> Z;
  insert_error : ContentItemInsert -> option PostgrestError;
  update_error : string -> Z -> option PostgrestError
}.

(** The mutable state: the two tables of the store, the number of clock
    reads so far and the state of the generator page. *)
Record World := {
  content_items : list ContentItemInsert;
  subscriptions : list Subscription;
  clock_reads : nat;
  generatedImage : option string;
  isGenerating : bool
}.

Definition tick (w : World) : World :=
  {| content_items := w.(content_items);
     subscriptions := w.(subscriptions);
     clock_reads := S w.(clock_reads);
     generatedImage := w.(generatedImage);
     isGenerating := w.(isGenerating) |}.

Definition with_generatedImage (v : option string) (w : World) : World :=
  {| content_items := w.(content_items);
     subscriptions := w.(subscriptions);
     clock_reads := w.(clock_reads);
     generatedImage := v;
     isGenerating := w.(isGenerating) |}.

Definition with_isGenerating (b : bool) (w : World) : World :=
  {| content_items := w.(content_items);
     subscriptions := w.(subscriptions);
     clock_reads := w.(clock_reads);
     generatedImage := w.(generatedImage);
     isGenerating := b |}.

Definition with_content_items (rows : list ContentItemInsert) (w : World)
  : World :=
  {| content_items := rows;
     subscriptions := w.(subscriptions);
     clock_reads := w.(clock_reads);
     generatedImage := w.(generatedImage);
     isGenerating := w.(isGenerating) |}.

Definition with_subscriptions (rows : list Subscription) (w : World)
  : World :=
  {| content_items := w.(content_items);
     subscriptions := rows;
     clock_reads := w.(clock_reads);
     generatedImage := w.(generatedImage);
     isGenerating := w.(isGenerating) |}.

(** What a flow does, in order.  [UsageChecked] marks the evaluation of the
    comparison of the usage guard and [DispatchReturned] the value bound to
    [result]; the others are calls that leave the page. *)
Inductive Event :=
| UsageChecked (usage limit : Z)
| OpenAIImagesGenerate (params : ImageGenerateParams)
| SetTimeout (ms : Z)
| DispatchReturned (r : GenerationResult)
| SupabaseInsert (row : ContentItemInsert)
| SupabaseUpdate (uid : string) (usage : Z)
| Alert (msg : string)
| ConsoleError (label : string).

(** ** The monad *)

Inductive Completion (A : Type) :=
| Normal (a : A)
| Throw (e : JS.Error).

Arguments Normal {A} a.
Arguments Throw {A} e.

Record Run (A : Type) := {
  completion : Completion A;
  world : World;
  events : list Event
}.

Arguments Build_Run {A} completion world events.
Arguments completion {A} r.
Arguments world {A} r.
Arguments events {A} r.

Definition Js (A : Type) : Type := World -> Run A.

Definition Js_ret {A} (a : A) : Js A :=
  fun w => {| completion := Normal a; world := w; events := [] |}.

Definition Js_bind {A B} (c : Js A) (k : A -> Js B) : Js B :=
  fun w =>
    match c w with
    | Build_Run (Normal a) w1 ev1 =>
        match k a w1 with
        | Build_Run r w2 ev2 =>
            {| completion := r; world := w2; events := ev1 ++ ev2 |}
        end
    | Build_Run (Throw e) w1 ev1 =>
        {| completion := Throw e; world := w1; events := ev1 |}
    end.

Definition Js_throw {A} (e : JS.Error) : Js A :=
  fun w => {| completion := Throw e; world := w; events := [] |}.

(** [try { c } catch (error) { h error }]: what [c] did before it threw
    stays done. *)
Definition Js_catch {A} (c : Js A) (h : JS.Error -> Js A) : Js A :=
  fun w =>
    match c w with
    | Build_Run (Normal a) w1 ev1 =>
        {| completion := Normal a; world := w1; events := ev1 |}
    | Build_Run (Throw e) w1 ev1 =>
        match h e w1 with
        | Build_Run r w2 ev2 =>
            {| completion := r; world := w2; events := ev1 ++ ev2 |}
        end
    end.

(** [try { c } finally { f }]. *)
Definition Js_finally {A} (c : Js A) (f : Js unit) : Js A :=
  fun w =>
    match c w with
    | Build_Run r w1 ev1 =>
        match f w1 with
        | Build_Run (Normal _) w2 ev2 =>
            {| completion := r; world := w2; events := ev1 ++ ev2 |}
        | Build_Run (Throw e) w2 ev2 =>
            {| completion := Throw e; world := w2; events := ev1 ++ ev2 |}
        end
    end.

#[global] Instance Monad_Js : Monad Js :=
  {| ret := @Js_ret; bind := @Js_bind |}.

#[global] Instance MonadExc_Js : MonadExc JS.Error Js :=
  {| raise := @Js_throw; catch := @Js_catch |}.

Definition emit (e : Event) : Js unit :=
  fun w => {| completion := Normal tt; world := w; events := [e] |}.

Definition alert (msg : string) : Js unit := emit (Alert msg).

Definition console_error (label : string) : Js unit :=
  emit (ConsoleError label).

(** [await new Promise(resolve => setTimeout(resolve, ms))]: the promise
    has no way to reject. *)
Definition sleep (ms : Z) : Js unit := emit (SetTimeout ms).

Definition setGeneratedImage (v : option string) : Js unit :=
  fun w =>
    {| completion := Normal tt;
       world := with_generatedImage v w;
       events := [] |}.

Definition setIsGenerating (b : bool) : Js unit :=
  fun w =>
    {| completion := Normal tt;
       world := with_isGenerating b w;
       events := [] |}.

(** The value a computation returned, if it did not throw. *)
Definition returned {A} (r : Run A) : option A :=
  match r.(completion) with
  | Normal a => Some a
  | Throw _ => None
  end.

(** The error a computation threw, if it did. *)
Definition thrown {A} (r : Run A) : option JS.Error :=
  match r.(completion) with
  | Normal _ => None
  | Throw e => Some e
  end.

(** ** AIService (services/openai) *)

Section Service.

Variable env : Env.

(** [Date.now()], and the instant of [new Date()]: each read takes the
    next value of the clock. *)
Definition Date_now : Js Z :=
  fun w =>
    {| completion := Normal (env.(clock) w.(clock_reads));
       world := tick w;
       events := [] |}.

(** [await openai.images.generate(params)]. *)
Definition openai_images_generate (params : ImageGenerateParams)
  : Js ImagesResponse :=
  fun w =>
    {| completion :=
         match env.(images_generate) params with
         | Fulfilled response => Normal response
         | Rejected e => Throw e
         end;
       world := w;
       events := [OpenAIImagesGenerate params] |}.

Definition image_request (options : GenerationOptions)
  : ImageGenerateParams :=
  {| model := "dall-e-3";
     request_prompt := optimizePrompt options.(prompt) options;
     size := "1024x1024";
     quality := "standard";
     n := 1 |}.

(** [response.data[0]?.url]. *)
Definition first_url (response : ImagesResponse) : option string :=
  match response.(data) with
  | [] => None
  | img :: _ => img.(image_url)
  end.

(** [response.data[0]?.revised_prompt]. *)
Definition first_revised_prompt (response : ImagesResponse)
  : option string :=
  match response.(data) with
  | [] => None
  | img :: _ => img.(revised_prompt)
  end.

Definition generateImage_try (options : GenerationOptions)
  : Js GenerationResult :=
  response <- openai_images_generate (image_request options) ;;
  let imageUrl := first_url response in
  if negb (JS.truthy_opt imageUrl)
  then raise {| JS.message := "No image URL returned from OpenAI" |}
  else
    rid <- (if JS.truthy_opt (first_revised_prompt response)
            then ret (JS.or_undefined (first_revised_prompt response) "")
            else now <- Date_now ;; ret (JS.number_toString now)) ;;
    ret {| success := true;
           url := imageUrl;
           error := None;
           result_id := Some rid |}.

Definition generateImage_catch (error : JS.Error) : Js GenerationResult :=
  console_error "OpenAI Image Generation Error:" ;;
  ret {| success := false;
         url := None;
         error := Some (JS.or_string error.(JS.message)
                                     "Failed to generate image");
         result_id := None |}.

Definition generateImage (options : GenerationOptions)
  : Js GenerationResult :=
  catch (generateImage_try options) generateImage_catch.

Definition generateVideo_try (options : GenerationOptions)
  : Js GenerationResult :=
  sleep 3000 ;;
  t_url <- Date_now ;;
  t_id <- Date_now ;;
  ret {| success := true;
         url := Some ("https://example.com/video-placeholder-"
                        ++ JS.number_toString t_url ++ ".mp4");
         error := None;
         result_id := Some ("video-" ++ JS.number_toString t_id) |}.

Definition generateVideo_catch (error : JS.Error) : Js GenerationResult :=
  ret {| success := false;
         url := None;
         error := Some (JS.or_string error.(JS.message)
                          "Video generation is currently in development");
         result_id := None |}.

Definition generateVideo (options : GenerationOptions)
  : Js GenerationResult :=
  catch (generateVideo_try options) generateVideo_catch.

End Service.

(** ** The generator page *)

(** What [onSubmit] closes over: the [user] and [subscription] of the auth
    context and the [optimizedPrompt] state, as of the render that created
    the handler. *)
Record Captured := {
  user : option User;
  subscription : option Subscription;
  optimizedPrompt : string
}.

Definition limit_message : string :=
  "You have reached your generation limit for this month. Please upgrade your plan.".

Definition set_current_usage (v : Z) (s : Subscription) : Subscription :=
  {| sub_id := s.(sub_id);
     user_id := s.(user_id);
     status := s.(status);
     plan := s.(plan);
     current_period_end := s.(current_period_end);
     usage_limit := s.(usage_limit);
     current_usage := v |}.

(** The rows of [subscriptions] after
    [update({ current_usage: v }).eq('user_id', uid)]. *)
Definition update_rows (v : Z) (uid : string) (rows : list Subscription)
  : list Subscription :=
  map (fun s => if String.eqb s.(user_id) uid
                then set_current_usage v s else s) rows.

(** [result.success && result.url]: the URL when the test passes. *)
Definition success_url (result : GenerationResult) : option string :=
  if result.(success)
  then match result.(url) with
       | Some u => if JS.truthy u then Some u else None
       | None => None
       end
  else None.

(** [subscription.current_usage >= subscription.usage_limit]. *)
Definition over_limit (s : Subscription) : bool :=
  s.(current_usage) >=? s.(usage_limit).

(** [subscription?.current_usage || 0]. *)
Definition captured_usage (subscription : option Subscription) : Z :=
  match subscription with
  | Some s => JS.or_zero s.(current_usage)
  | None => 0
  end.

Section Generator.

Variable env : Env.
Variable c : Captured.

(** [await supabase.from('content_items').insert(row)]. *)
Definition supabase_insert_content_item (row : ContentItemInsert)
  : Js (option PostgrestError) :=
  fun w =>
    match env.(insert_error) row with
    | Some e =>
        {| completion := Normal (Some e);
           world := w;
           events := [SupabaseInsert row] |}
    | None =>
        {| completion := Normal None;
           world := with_content_items (w.(content_items) ++ [row]) w;
           events := [SupabaseInsert row] |}
    end.

(** [await supabase.from('subscriptions').update({ current_usage: v })
    .eq('user_id', uid)]. *)
Definition supabase_update_current_usage (v : Z) (uid : string)
  : Js (option PostgrestError) :=
  fun w =>
    match env.(update_error) uid v with
    | Some e =>
        {| completion := Normal (Some e);
           world := w;
           events := [SupabaseUpdate uid v] |}
    | None =>
        {| completion := Normal None;
           world :=
             with_subscriptions (update_rows v uid w.(subscriptions)) w;
           events := [SupabaseUpdate uid v] |}
    end.

(** The test of the usage guard,
    [subscription && subscription.current_usage >= subscription.usage_limit]:
    the comparison is evaluated only when there is a subscription. *)
Definition usage_limit_reached : Js bool :=
  match c.(subscription) with
  | None => ret false
  | Some s =>
      emit (UsageChecked s.(current_usage) s.(usage_limit)) ;;
      ret (over_limit s)
  end.

(** The object literal that "Save to database" inserts; [now] is the
    instant of its [new Date()]. *)
Definition new_content_item (u : User) (data : GenerationForm)
           (result_url : string) (now : Z) : ContentItemInsert :=
  {| item_user_id := u.(id);
     title := "Generated " ++ ContentType_text data.(form_type);
     description := data.(form_prompt);
     item_prompt := JS.or_string c.(optimizedPrompt) data.(form_prompt);
     item_type := data.(form_type);
     item_platform := data.(form_platform);
     item_style := data.(form_style);
     output_url := result_url;
     created_at := now |}.

(** "Save to database". *)
Definition save_to_database (u : User) (data : GenerationForm)
           (result_url : string) : Js unit :=
  now <- Date_now env ;;
  error <- supabase_insert_content_item
             (new_content_item u data result_url now) ;;
  match error with
  | Some _ => console_error "Error saving content:"
  | None => ret tt
  end.

(** "Update usage". *)
Definition update_usage (u : User) : Js unit :=
  supabase_update_current_usage
    (captured_usage c.(subscription) + 1) u.(id) ;;
  ret tt.

Definition options_of (data : GenerationForm) : GenerationOptions :=
  {| prompt := JS.or_string c.(optimizedPrompt) data.(form_prompt);
     style := data.(form_style);
     platform := data.(form_platform);
     type := data.(form_type) |}.

(** The call of the service: video goes to [generateVideo], every other
    type to [generateImage]. *)
Definition dispatch (data : GenerationForm) (options : GenerationOptions)
  : Js GenerationResult :=
  if is_video data.(form_type)
  then generateVideo env options
  else generateImage env options.

(** What the handler does with the result of the service. *)
Definition handle_result (u : User) (data : GenerationForm)
           (result : GenerationResult) : Js unit :=
  match success_url result with
  | Some result_url =>
      setGeneratedImage (Some result_url) ;;
      save_to_database u data result_url ;;
      update_usage u
  | None =>
      alert (JS.or_undefined result.(error) "Generation failed")
  end.

Definition onSubmit (data : GenerationForm) : Js unit :=
  match c.(user) with
  | None => ret tt
  | Some u =>
      reached <- usage_limit_reached ;;
      if reached
      then alert limit_message
      else
        setIsGenerating true ;;
        setGeneratedImage None ;;
        Js_finally
          (catch
             (let options := options_of data in
              result <- dispatch data options ;;
              emit (DispatchReturned result) ;;
              handle_result u data result)
             (fun error =>
                console_error "Generation error:" ;;
                alert "An error occurred during generation"))
          (setIsGenerating false)
  end.

End Generator.

(** ** Reading a flow *)

(** The steps of a generation flow that the design names. *)
Inductive Step := Authorize | Dispatch | RecordUsage | RecordContent.

Definition step_of (e : Event) : option Step :=
  match e with
  | UsageChecked _ _ => Some Authorize
  | OpenAIImagesGenerate _ | SetTimeout _ => Some Dispatch
  | SupabaseInsert _ => Some RecordContent
  | SupabaseUpdate _ _ => Some RecordUsage
  | _ => None
  end.

Fixpoint steps (t : list Event) : list Step :=
  match t with
  | [] => []
  | e :: t' =>
      match step_of e with
      | Some s => s :: steps t'
      | None => steps t'
      end
  end.

(** A generation call: a request to the image provider or the timer of the
    video path. *)
Definition is_generation_call (e : Event) : bool :=
  match e with
  | OpenAIImagesGenerate _ | SetTimeout _ => true
  | _ => false
  end.

Definition is_store_write (e : Event) : bool :=
  match e with
  | SupabaseInsert _ | SupabaseUpdate _ _ => true
  | _ => false
  end.

Definition is_usage_check (e : Event) : bool :=
  match e with
  | UsageChecked _ _ => true
  | _ => false
  end.

(** Whether the usage guard of a page refuses a submission. *)
Definition refuses (c : Captured) : bool :=
  match c.(subscription) with
  | Some s => over_limit s
  | None => false
  end.

(** What the guard leaves in the trace. *)
Definition check_events (c : Captured) : list Event :=
  match c.(subscription) with
  | Some s => [UsageChecked s.(current_usage) s.(usage_limit)]
  | None => []
  end.

(** The page once a generation has started. *)
Definition started (w : World) : World :=
  with_generatedImage None (with_isGenerating true w).

(** The events of the two store writes of a successful generation. *)
Definition write_events (env : Env) (row : ContentItemInsert)
           (uid : string) (v : Z) : list Event :=
  SupabaseInsert row
  :: match env.(insert_error) row with
     | Some _ => [ConsoleError "Error saving content:"]
     | None => []
     end
  ++ [SupabaseUpdate uid v].



(** The three shapes of the trace of a dispatch. *)
Inductive dispatch_trace (o : GenerationOptions) : list Event -> Prop :=
| trace_video : dispatch_trace o [SetTimeout 3000]
| trace_image : dispatch_trace o [OpenAIImagesGenerate (image_request o)]
| trace_image_failed :
    dispatch_trace o [OpenAIImagesGenerate (image_request o);
                      ConsoleError "OpenAI Image Generation Error:"].

(** What the handler does with a result, in the two cases of its test. *)
Inductive handled (env : Env) (c : Captured) (u : User) (w : World)
          (g : GenerationResult) : World -> list Event -> Prop :=
| handled_failure wh :
    success_url g = None ->
    wh.(content_items) = w.(content_items) ->
    wh.(subscriptions) = w.(subscriptions) ->
    handled env c u w g wh
            [Alert (JS.or_undefined g.(error) "Generation failed")]
| handled_success wh result_url row :
    success_url g = Some result_url ->
    row.(output_url) = result_url ->
    (env.(insert_error) row = None ->
     wh.(content_items) = (w.(content_items) ++ [row])%list) ->
    (env.(update_error) u.(id) (captured_usage c.(subscription) + 1) = None ->
     wh.(subscriptions)
     = update_rows (captured_usage c.(subscription) + 1) u.(id)
                   w.(subscriptions)) ->
    handled env c u w g wh
            (write_events env row u.(id)
                          (captured_usage c.(subscription) + 1)).

(** ** Fixtures: concrete collaborators, users and pages *)

Module Fixtures.

Definition an_image : Image :=
  {| image_url := Some "https://cdn.example/img.png";
     revised_prompt := None |}.

Definition store_accepts_all (images : ImageGenerateParams
                                       -> Settled ImagesResponse) : Env :=
  {| images_generate := images;
     clock := fun k => 1700000000000 + Z.of_nat k;
     insert_error := fun _ => None;
     update_error := fun _ _ => None |}.

(** The provider returns one image. *)
Definition env_image : Env :=
  store_accepts_all (fun _ => Fulfilled {| data := [an_image] |}).

(** The provider returns an empty list of images. *)
Definition env_no_image : Env :=
  store_accepts_all (fun _ => Fulfilled {| data := [] |}).

(** The provider call fails. *)
Definition env_down : Env :=
  store_accepts_all
    (fun _ => Rejected {| JS.message := "Connection error." |}).

Definition alice : User := {| id := "u1"; email := "alice@example.com" |}.

Definition quota (usage limit : Z) : Subscription :=
  {| sub_id := "s1";
     user_id := "u1";
     status := active;
     plan := free;
     current_period_end := "2026-01-01T00:00:00Z";
     usage_limit := limit;
     current_usage := usage |}.

Definition page (usage limit : Z) : Captured :=
  {| user := Some alice;
     subscription := Some (quota usage limit);
     optimizedPrompt := "" |}.

Definition page_without_subscription : Captured :=
  {| user := Some alice; subscription := None; optimizedPrompt := "" |}.

Definition start (usage limit : Z) : World :=
  {| content_items := [];
     subscriptions := [quota usage limit];
     clock_reads := 0;
     generatedImage := None;
     isGenerating := false |}.

Definition form (t : ContentType) : GenerationForm :=
  {| form_prompt := "A modern tech startup banner with gradient";
     form_type := t;
     form_platform := instagram;
     form_style := realistic |}.

Definition request (p : string) : GenerationOptions :=
  {| prompt := p; style := realistic; platform := instagram;
     type := image |}.

(** The provider returns no image. *)
Definition dispatch_without_image : Run GenerationResult :=
  generateImage env_no_image
    (request "A modern tech startup banner with gradient") (start 0 10).

(** A dispatch with an empty raw prompt. *)
Definition dispatch_of_empty_prompt : Run GenerationResult :=
  generateImage env_image (request "") (start 0 10).

(** A complete image flow: usage 3 of 10. *)
Definition complete_flow : Run unit :=
  onSubmit env_image (page 3 10) (form image) (start 3 10).

(** The same handler submitted a second time. *)
Definition second_flow : Run unit :=
  onSubmit env_image (page 3 10) (form image) complete_flow.(world).

(** A flow whose dispatch fails. *)
Definition failed_flow : Run unit :=
  onSubmit env_no_image (page 3 10) (form image) (start 3 10).

(** A video flow, the image provider being down. *)
Definition video_flow : Run unit :=
  onSubmit env_down (page 3 10) (form video) (start 3 10).

(** The usage update of a handler that captured usage 3, once and twice. *)
Definition updated_once : Run unit :=
  update_usage env_image (page 3 10) alice (start 3 10).

Definition updated_twice : Run unit :=
  update_usage env_image (page 3 10) alice updated_once.(world).

End Fixtures.

(** ** Running the model *)

(** Unfold the monad and the code of the service and of the page, then
    reduce the projections of the records built on the way. *)
Ltac js_run :=
  cbv beta iota zeta delta
    [Js_catch Js_bind Js_ret Js_throw Js_finally bind ret raise catch
     Monad_Js MonadExc_Js emit alert console_error sleep
     setGeneratedImage setIsGenerating Date_now openai_images_generate
     generateImage generateImage_try generateImage_catch
     generateVideo generateVideo_try generateVideo_catch
     supabase_insert_content_item supabase_update_current_usage
     usage_limit_reached save_to_database update_usage dispatch
     handle_result onSubmit
     returned thrown];
  cbn [completion world events app negb existsb orb steps step_of
       is_generation_call is_store_write is_usage_check
       content_items subscriptions clock_reads generatedImage isGenerating
       tick with_generatedImage with_isGenerating with_content_items
       with_subscriptions].

(** ** Reading a dispatch *)

Definition image_failure (msg : string) : GenerationResult :=
  {| success := false; url := None; error := Some msg; result_id := None |}.

(** No image of the response carries a URL. *)
Definition no_output_url (response : ImagesResponse) : bool :=
  forallb (fun img => negb (JS.truthy_opt img.(image_url))) response.(data).

(** ** Asynchronous functions over any state

    The same monad as [Js], for the code whose state is not the [World] of
    the generation flow: [S] is the state the function reads and sets, [Ev]
    the calls it makes to the outside. *)

Module Task.

Record Outcome (S Ev A : Type) := {
  result : Completion A;
  state : S;
  log : list Ev
}.

Arguments Build_Outcome {S Ev A} result state log.
Arguments result {S Ev A} o.
Arguments state {S Ev A} o.
Arguments log {S Ev A} o.

Definition t (S Ev A : Type) : Type := S -> Outcome S Ev A.

Definition pure {S Ev A} (a : A) : t S Ev A :=
  fun s => {| result := Normal a; state := s; log := [] |}.

Definition and_then {S Ev A B} (c : t S Ev A) (k : A -> t S Ev B)
  : t S Ev B :=
  fun s =>
    match c s with
    | Build_Outcome (Normal a) s1 l1 =>
        match k a s1 with
        | Build_Outcome r s2 l2 =>
            {| result := r; state := s2; log := l1 ++ l2 |}
        end
    | Build_Outcome (Throw e) s1 l1 =>
        {| result := Throw e; state := s1; log := l1 |}
    end.

Definition throw {S Ev A} (e : JS.Error) : t S Ev A :=
  fun s => {| result := Throw e; state := s; log := [] |}.

Definition try_catch {S Ev A} (c : t S Ev A) (h : JS.Error -> t S Ev A)
  : t S Ev A :=
  fun s =>
    match c s with
    | Build_Outcome (Normal a) s1 l1 =>
        {| result := Normal a; state := s1; log := l1 |}
    | Build_Outcome (Throw e) s1 l1 =>
        match h e s1 with
        | Build_Outcome r s2 l2 =>
            {| result := r; state := s2; log := l1 ++ l2 |}
        end
    end.

Definition try_finally {S Ev A} (c : t S Ev A) (f : t S Ev unit)
  : t S Ev A :=
  fun s =>
    match c s with
    | Build_Outcome r s1 l1 =>
        match f s1 with
        | Build_Outcome (Normal _) s2 l2 =>
            {| result := r; state := s2; log := l1 ++ l2 |}
        | Build_Outcome (Throw e) s2 l2 =>
            {| result := Throw e; state := s2; log := l1 ++ l2 |}
        end
    end.

Definition read {S Ev} : t S Ev S :=
  fun s => {| result := Normal s; state := s; log := [] |}.

Definition write {S Ev} (s' : S) : t S Ev unit :=
  fun _ => {| result := Normal tt; state := s'; log := [] |}.

Definition call {S Ev} (e : Ev) : t S Ev unit :=
  fun s => {| result := Normal tt; state := s; log := [e] |}.

(** An awaited promise: the call is logged, then the promise settles. *)
Definition await {S Ev A} (e : Ev) (p : Settled A) : t S Ev A :=
  fun s =>
    {| result := match p with
                 | Fulfilled a => Normal a
                 | Rejected err => Throw err
                 end;
       state := s;
       log := [e] |}.

(** The value returned, if the function did not throw. *)
Definition returned {S Ev A} (o : Outcome S Ev A) : option A :=
  match o.(result) with
  | Normal a => Some a
  | Throw _ => None
  end.

End Task.

#[global] Instance Monad_Task (S Ev : Type) : Monad (Task.t S Ev) :=
  {| ret := @Task.pure S Ev; bind := @Task.and_then S Ev |}.

#[global] Instance MonadExc_Task (S Ev : Type)
  : MonadExc JS.Error (Task.t S Ev) :=
  {| raise := @Task.throw S Ev; catch := @Task.try_catch S Ev |}.

#[global] Instance MonadState_Task (S Ev : Type)
  : MonadState S (Task.t S Ev) :=
  {| get := @Task.read S Ev; put := @Task.write S Ev |}.

(** ** AIService.optimizeTextPrompt *)

(** A double quote, as a string. *)
Definition double_quote : string := String (Ascii.ascii_of_nat 34) EmptyString.

Record ChatMessageParam := { role : string; content : string }.

Record ChatCompletionParams := {
  chat_model : string;
  messages : list ChatMessageParam;
  max_tokens : Z
}.

(** A completion: [choices[i].message.content] is a string or [null]; the
    code guards every step of the path with [?.]. *)
Record ChatCompletionMessage := { message_content : option string }.
Record Choice := { choice_message : option ChatCompletionMessage }.
Record ChatCompletion := { choices : list Choice }.

Inductive PromptEvent :=
| ChatCompletionsCreate (params : ChatCompletionParams)
| TextConsoleError (label : string).

Definition system_instruction : string :=
  "You are a marketing content expert. Optimize the user's prompt for AI image generation. Make it more descriptive, add relevant marketing keywords, and ensure it will produce high-quality marketing content. Keep it under 400 characters.".

Definition chat_request (prompt : string) : ChatCompletionParams :=
  {| chat_model := "gpt-4";
     messages :=
       [ {| role := "system"; content := system_instruction |};
         {| role := "user";
            content :=
              "Optimize this prompt for marketing content generation: "
                ++ double_quote ++ prompt ++ double_quote |} ];
     max_tokens := 200 |}.

Section TextOptimization.

(** The page state the caller threads through. *)
Variable S : Type.

(** What the provider answers to a completion request. *)
Variable chat : ChatCompletionParams -> Settled ChatCompletion.

(** [String.prototype.trim]. *)
Variable trim : string -> string.

(** [response.choices[0]?.message?.content?.trim()]. *)
Definition first_content_trimmed (response : ChatCompletion)
  : option string :=
  match response.(choices) with
  | [] => None
  | choice :: _ =>
      match choice.(choice_message) with
      | None => None
      | Some m =>
          match m.(message_content) with
          | None => None
          | Some text => Some (trim text)
          end
      end
  end.

Definition optimizeTextPrompt (prompt : string)
  : Task.t S PromptEvent string :=
  catch
    (response <- Task.await (ChatCompletionsCreate (chat_request prompt))
                            (chat (chat_request prompt)) ;;
     ret (JS.or_undefined (first_content_trimmed response) prompt))
    (fun error =>
       Task.call (TextConsoleError "OpenAI Text Optimization Error:") ;;
       ret prompt).

End TextOptimization.

(** ** The generator page: optimizing the prompt when typing stops *)

Section AutoOptimize.

Variable chat : ChatCompletionParams -> Settled ChatCompletion.
Variable trim : string -> string.

(** The callback of the one-second timer of the effect on [watchPrompt];
    the state is [optimizedPrompt].  [watchPrompt] is [undefined] until the
    field has a value; a character is one UTF-16 code unit. *)
Definition auto_optimize (watchPrompt : option string)
  : Task.t string PromptEvent unit :=
  match watchPrompt with
  | Some p =>
      if JS.truthy p && (10 <? String.length p)%nat
      then
        optimized <- optimizeTextPrompt string chat trim p ;;
        put optimized
      else ret tt
  | None => ret tt
  end.

End AutoOptimize.

(** ** The library page *)

(** The string a [Platform] and a [Style] are at run time. *)
Definition Platform_text (p : Platform) : string :=
  match p with
  | facebook => "facebook"
  | instagram => "instagram"
  | youtube => "youtube"
  | google_ads => "google_ads"
  | twitter => "twitter"
  | linkedin => "linkedin"
  end.

Definition Style_text (s : Style) : string :=
  match s with
  | realistic => "realistic"
  | surreal => "surreal"
  | anime => "anime"
  | futuristic => "futuristic"
  end.

(** [user.id], under a name that the fields of the library's records do
    not hide. *)
Definition id_of_user (u : User) : string := u.(id).

Module Library.

(** [ContentItem] of types/index.ts. *)
Record ContentItem := {
  id : string;
  user_id : string;
  title : string;
  description : option string;
  prompt : string;
  type : ContentType;
  platform : Platform;
  style : Style;
  output_url : string;
  created_at : string
}.

(** The state of the page that its functions read and set. *)
Record State := {
  contentItems : list ContentItem;
  loading : bool;
  searchTerm : string;
  selectedTypes : list string;
  selectedPlatforms : list string;
  selectedStyles : list string;
  selectedItem : option ContentItem
}.

Definition with_contentItems (v : list ContentItem) (st : State) : State :=
  {| contentItems := v;
     loading := st.(loading);
     searchTerm := st.(searchTerm);
     selectedTypes := st.(selectedTypes);
     selectedPlatforms := st.(selectedPlatforms);
     selectedStyles := st.(selectedStyles);
     selectedItem := st.(selectedItem) |}.

Definition with_loading (v : bool) (st : State) : State :=
  {| contentItems := st.(contentItems);
     loading := v;
     searchTerm := st.(searchTerm);
     selectedTypes := st.(selectedTypes);
     selectedPlatforms := st.(selectedPlatforms);
     selectedStyles := st.(selectedStyles);
     selectedItem := st.(selectedItem) |}.

Definition with_selectedTypes (v : list string) (st : State) : State :=
  {| contentItems := st.(contentItems);
     loading := st.(loading);
     searchTerm := st.(searchTerm);
     selectedTypes := v;
     selectedPlatforms := st.(selectedPlatforms);
     selectedStyles := st.(selectedStyles);
     selectedItem := st.(selectedItem) |}.

Definition with_selectedPlatforms (v : list string) (st : State) : State :=
  {| contentItems := st.(contentItems);
     loading := st.(loading);
     searchTerm := st.(searchTerm);
     selectedTypes := st.(selectedTypes);
     selectedPlatforms := v;
     selectedStyles := st.(selectedStyles);
     selectedItem := st.(selectedItem) |}.

Definition with_selectedStyles (v : list string) (st : State) : State :=
  {| contentItems := st.(contentItems);
     loading := st.(loading);
     searchTerm := st.(searchTerm);
     selectedTypes := st.(selectedTypes);
     selectedPlatforms := st.(selectedPlatforms);
     selectedStyles := v;
     selectedItem := st.(selectedItem) |}.

Definition with_selectedItem (v : option ContentItem) (st : State) : State :=
  {| contentItems := st.(contentItems);
     loading := st.(loading);
     searchTerm := st.(searchTerm);
     selectedTypes := st.(selectedTypes);
     selectedPlatforms := st.(selectedPlatforms);
     selectedStyles := st.(selectedStyles);
     selectedItem := v |}.

Definition types : list string := ["image"; "video"; "banner"; "social"].

Definition platforms : list string :=
  ["facebook"; "instagram"; "youtube"; "google_ads"; "twitter"; "linkedin"].

Definition styles : list string :=
  ["realistic"; "surreal"; "anime"; "futuristic"].

(** [Array.prototype.includes] on strings. *)
Definition array_includes (l : list string) (v : string) : bool :=
  existsb (String.eqb v) l.

(** [toggleFilter]: the list it passes to [setFilters]. *)
Definition toggleFilter (filterType value : string)
           (currentFilters : list string) : list string :=
  if array_includes currentFilters value
  then filter (fun f => negb (String.eqb f value)) currentFilters
  else currentFilters ++ [value].

(** The clicks on a type, a platform and a style button. *)
Definition toggle_type (value : string) (st : State) : State :=
  with_selectedTypes (toggleFilter "type" value st.(selectedTypes)) st.

Definition toggle_platform (value : string) (st : State) : State :=
  with_selectedPlatforms
    (toggleFilter "platform" value st.(selectedPlatforms)) st.

Definition toggle_style (value : string) (st : State) : State :=
  with_selectedStyles (toggleFilter "style" value st.(selectedStyles)) st.

Section Filter.

(** [String.prototype.toLowerCase]. *)
Variable toLowerCase : string -> string.

Definition matchesSearch (st : State) (item : ContentItem) : bool :=
  JS.includes (toLowerCase item.(title)) (toLowerCase st.(searchTerm))
  || match item.(description) with
     | Some d => JS.includes (toLowerCase d) (toLowerCase st.(searchTerm))
     | None => false
     end
  || JS.includes (toLowerCase item.(prompt)) (toLowerCase st.(searchTerm)).

Definition matchesType (st : State) (item : ContentItem) : bool :=
  (length st.(selectedTypes) =? 0)%nat
  || array_includes st.(selectedTypes) (ContentType_text item.(type)).

Definition matchesPlatform (st : State) (item : ContentItem) : bool :=
  (length st.(selectedPlatforms) =? 0)%nat
  || array_includes st.(selectedPlatforms) (Platform_text item.(platform)).

Definition matchesStyle (st : State) (item : ContentItem) : bool :=
  (length st.(selectedStyles) =? 0)%nat
  || array_includes st.(selectedStyles) (Style_text item.(style)).

Definition filteredItems (st : State) : list ContentItem :=
  filter (fun item =>
            matchesSearch st item && matchesType st item
            && matchesPlatform st item && matchesStyle st item)
         st.(contentItems).

End Filter.

(** What the page calls outside itself. *)
Inductive Event :=
| Confirm (msg : string)
| SupabaseDelete (item_id : string)
| SupabaseSelect (uid : string)
| Fetch (url : string)
| AnchorClick (href download : string)
| RevokeObjectURL (url : string)
| Alert (msg : string)
| ConsoleError (label : string).

Record SelectResponse := {
  select_data : option (list ContentItem);
  select_error : option PostgrestError
}.

(** What the user and the collaborators answer: the answer to the
    confirmation dialog, the [error] of a delete, the response of the select
    for a user, and for a URL the object URL of the fetched blob or the error
    of the fetch. *)
Record Env := {
  confirm_answer : bool;
  delete_error : string -> option PostgrestError;
  select_response : string -> SelectResponse;
  fetch_object_url : string -> Settled string
}.

(** A store error, thrown. *)
Definition thrown_error (e : PostgrestError) : JS.Error :=
  {| JS.message := e.(pg_message) |}.

(** The file name the download of an item gets. *)
Definition download_name (item : ContentItem) : string :=
  "fastad-" ++ item.(title) ++ "-" ++ item.(id) ++ "."
    ++ (if is_video item.(type) then "mp4" else "png").

Section Page.

Variable env : Env.

Definition setContentItems (f : list ContentItem -> list ContentItem)
  : Task.t State Event unit :=
  st <- get ;;
  put (with_contentItems (f st.(contentItems)) st).

Definition setSelectedItem (v : option ContentItem)
  : Task.t State Event unit :=
  st <- get ;;
  put (with_selectedItem v st).

Definition setLoading (v : bool) : Task.t State Event unit :=
  st <- get ;;
  put (with_loading v st).

(** [selectedItem?.id === itemId]. *)
Definition selected_is (itemId : string) (st : State) : bool :=
  match st.(selectedItem) with
  | Some item => String.eqb item.(id) itemId
  | None => false
  end.

Definition deleteItem (itemId : string) : Task.t State Event unit :=
  Task.call (Confirm "Are you sure you want to delete this item?") ;;
  if negb env.(confirm_answer)
  then ret tt
  else
    catch
      (Task.call (SupabaseDelete itemId) ;;
       match env.(delete_error) itemId with
       | Some error => raise (thrown_error error)
       | None =>
           setContentItems
             (filter (fun item => negb (String.eqb item.(id) itemId))) ;;
           st <- get ;;
           if selected_is itemId st
           then setSelectedItem None
           else ret tt
       end)
      (fun error =>
         Task.call (ConsoleError "Error deleting item:") ;;
         Task.call (Alert "Error deleting item")).

Definition fetchContentItems (user : option User)
  : Task.t State Event unit :=
  match user with
  | None => ret tt
  | Some u =>
      Task.try_finally
        (catch
           (Task.call (SupabaseSelect (id_of_user u)) ;;
            let response := env.(select_response) (id_of_user u) in
            match response.(select_error) with
            | Some error => raise (thrown_error error)
            | None =>
                setContentItems
                  (fun _ => match response.(select_data) with
                            | Some rows => rows
                            | None => []
                            end)
            end)
           (fun error =>
              Task.call (ConsoleError "Error fetching content items:")))
        (setLoading false)
  end.

Definition downloadItem (item : ContentItem) : Task.t State Event unit :=
  catch
    (url <- Task.await (Fetch item.(output_url))
                       (env.(fetch_object_url) item.(output_url)) ;;
     Task.call (AnchorClick url (download_name item)) ;;
     Task.call (RevokeObjectURL url))
    (fun error =>
       Task.call (ConsoleError "Error downloading item:") ;;
       Task.call (Alert "Error downloading item")).

End Page.

End Library.

(** ** Reading results and traces *)

Definition is_some {A} (o : option A) : bool :=
  match o with
  | Some _ => true
  | None => false
  end.

(** A result is either a success with a non-empty URL and no error, or a
    failure with a non-empty error message and no URL. *)
Definition well_formed_result (g : GenerationResult) : bool :=
  if g.(success)
  then JS.truthy_opt g.(url) && negb (is_some g.(error))
  else negb (is_some g.(url)) && JS.truthy_opt g.(error).

(** The events the service itself may leave. *)
Definition is_service_event (e : Event) : bool :=
  match e with
  | OpenAIImagesGenerate _ | SetTimeout _ | ConsoleError _ => true
  | _ => false
  end.

Definition is_alert (e : Event) : bool :=
  match e with
  | Alert _ => true
  | _ => false
  end.

(** The generation call of a flow, by the type of the form. *)
Definition generation_call_of (c : Captured) (data : GenerationForm)
  : Event :=
  if is_video data.(form_type)
  then SetTimeout 3000
  else OpenAIImagesGenerate (image_request (options_of c data)).

(** Split a membership in an explicit trace into its cases and drop those
    that name another event. *)
Ltac in_trace H :=
  cbn in H;
  repeat (destruct H as [H|H]; [try discriminate H|]);
  try contradiction.

Definition is_chat_request (e : PromptEvent) : bool :=
  match e with
  | ChatCompletionsCreate _ => true
  | TextConsoleError _ => false
  end.

(** ** Fixtures for the text optimization *)

Module TextFixtures.

(** The provider rewrites every prompt to the same text. *)
Definition chat_rewrites : ChatCompletionParams -> Settled ChatCompletion :=
  fun _ =>
    Fulfilled
      {| choices :=
           [ {| choice_message :=
                  Some {| message_content :=
                            Some "Sleek gradient banner for a tech startup" |}
             |} ] |}.

(** The provider is down. *)
Definition chat_down : ChatCompletionParams -> Settled ChatCompletion :=
  fun _ => Rejected {| JS.message := "Connection error." |}.

(** The texts of these fixtures have no white space around them: on them
    [trim] returns its argument. *)
Definition trim_nothing (s : string) : string := s.

(** A page whose optimized prompt comes from an earlier, longer input. *)
Definition page_with (optimized : string) : Captured :=
  {| user := Some Fixtures.alice;
     subscription := Some (Fixtures.quota 3 10);
     optimizedPrompt := optimized |}.

Definition short_form : GenerationForm :=
  {| form_prompt := "Red shoes.";
     form_type := image;
     form_platform := instagram;
     form_style := realistic |}.

End TextFixtures.

(** ** Reading the library page *)


(** The items a delete of [itemId] keeps. *)
Definition kept (itemId : string) (item : Library.ContentItem) : bool :=
  negb (String.eqb item.(Library.id) itemId).

Definition is_library_alert (e : Library.Event) : bool :=
  match e with
  | Library.Alert _ => true
  | _ => false
  end.

Definition is_anchor_click (e : Library.Event) : bool :=
  match e with
  | Library.AnchorClick _ _ => true
  | _ => false
  end.

(** ** Fixtures for the library page *)

Module LibraryFixtures.

Definition item (key t : string) (ty : ContentType) : Library.ContentItem :=
  {| Library.id := key;
     Library.user_id := "u1";
     Library.title := t;
     Library.description := None;
     Library.prompt := "a banner";
     Library.type := ty;
     Library.platform := instagram;
     Library.style := realistic;
     Library.output_url := "https://cdn.example/" ++ key;
     Library.created_at := "2026-01-01T00:00:00Z" |}.

Definition banner_item : Library.ContentItem :=
  item "c1" "Generated banner" banner.

Definition video_item : Library.ContentItem :=
  item "c2" "Generated video" video.

Definition page : Library.State :=
  {| Library.contentItems := [banner_item; video_item];
     Library.loading := true;
     Library.searchTerm := "";
     Library.selectedTypes := [];
     Library.selectedPlatforms := [];
     Library.selectedStyles := [];
     Library.selectedItem := Some video_item |}.

(** The user confirms, the store deletes, selects two rows and the fetch of
    a file succeeds. *)
Definition env_ok : Library.Env :=
  {| Library.confirm_answer := true;
     Library.delete_error := fun _ => None;
     Library.select_response := fun _ =>
       {| Library.select_data := Some [video_item; banner_item];
          Library.select_error := None |};
     Library.fetch_object_url := fun _ => Fulfilled "blob:1" |}.

(** The user confirms and every call to the outside fails. *)
Definition env_failing : Library.Env :=
  {| Library.confirm_answer := true;
     Library.delete_error := fun _ => Some {| pg_message := "denied" |};
     Library.select_response := fun _ =>
       {| Library.select_data := None;
          Library.select_error := Some {| pg_message := "denied" |} |};
     Library.fetch_object_url := fun _ =>
       Rejected {| JS.message := "Failed to fetch" |} |}.

(** The user declines. *)
Definition env_declined : Library.Env :=
  {| Library.confirm_answer := false;
     Library.delete_error := fun _ => None;
     Library.select_response := fun _ =>
       {| Library.select_data := None; Library.select_error := None |};
     Library.fetch_object_url := fun _ => Fulfilled "blob:1" |}.

(** Lower-casing of the letters A to Z; the texts of these fixtures hold no
    other upper-case character. *)
Fixpoint lower_ascii (s : string) : string :=
  match s with
  | EmptyString => EmptyString
  | String ch rest =>
      let k := Ascii.nat_of_ascii ch in
      String (if ((65 <=? k) && (k <=? 90))%nat
              then Ascii.ascii_of_nat (k + 32)
              else ch)
             (lower_ascii rest)
  end.

End LibraryFixtures.

(** Unfold the code of the library page and the monad it runs in. *)
Ltac task_run :=
  cbv beta iota zeta delta
    [Task.pure Task.and_then Task.throw Task.try_catch Task.try_finally
     Task.read Task.write Task.call Task.await Task.returned
     bind ret raise catch get put
     Monad_Task MonadExc_Task MonadState_Task
     Library.setContentItems Library.setSelectedItem Library.setLoading
     Library.deleteItem Library.fetchContentItems Library.downloadItem];
  cbn [Task.result Task.state Task.log app negb
       Library.contentItems Library.loading Library.searchTerm
       Library.selectedTypes Library.selectedPlatforms
       Library.selectedStyles Library.selectedItem
       Library.with_contentItems Library.with_selectedItem
       Library.with_loading].
(** ** Strings *)

Lemma startsWith_append (p rest : string) :
  JS.startsWith (p ++ rest) p = true.
Proof.
  induction p as [|ch p IH]; simpl.
  - destruct rest; reflexivity.
  - now rewrite Ascii.eqb_refl, IH.
Qed.

Lemma includes_startsWith (s needle : string) :
  JS.startsWith s needle = true -> JS.includes s needle = true.
Proof.
  intros H. destruct s; cbn [JS.includes]; rewrite H; reflexivity.
Qed.

Lemma includes_skip (pre s needle : string) :
  JS.includes s needle = true -> JS.includes (pre ++ s) needle = true.
Proof.
  intros H. induction pre as [|ch pre IH]; simpl.
  - exact H.
  - rewrite IH. apply orb_true_r.
Qed.

Lemma endsWith_refl (s : string) : JS.endsWith s s = true.
Proof.
  destruct s; cbn [JS.endsWith]; now rewrite String.eqb_refl.
Qed.

Lemma endsWith_skip (pre s suffix : string) :
  JS.endsWith s suffix = true -> JS.endsWith (pre ++ s) suffix = true.
Proof.
  intros H. induction pre as [|ch pre IH]; simpl.
  - exact H.
  - rewrite IH. apply orb_true_r.
Qed.

(** ** The prompt optimizer *)

Lemma optimizePrompt_only_reads_style_and_platform
      (p : string) (o o' : GenerationOptions) :
  o'.(style) = o.(style) -> o'.(platform) = o.(platform) ->
  optimizePrompt p o' = optimizePrompt p o.
Proof.
  intros Hs Hp. unfold optimizePrompt. now rewrite Hs, Hp.
Qed.

Lemma optimizePrompt_includes_style (p : string) (o : GenerationOptions) :
  JS.includes (optimizePrompt p o) (stylePrompts o.(style)) = true.
Proof.
  unfold optimizePrompt.
  do 2 apply includes_skip.
  apply includes_startsWith, startsWith_append.
Qed.

Lemma optimizePrompt_includes_platform (p : string) (o : GenerationOptions) :
  JS.includes (optimizePrompt p o) (platformPrompts o.(platform)) = true.
Proof.
  unfold optimizePrompt.
  do 4 apply includes_skip.
  apply includes_startsWith, startsWith_append.
Qed.

Lemma optimizePrompt_endsWith_suffix (p : string) (o : GenerationOptions) :
  JS.endsWith (optimizePrompt p o) marketing_suffix = true.
Proof.
  unfold optimizePrompt.
  do 6 apply endsWith_skip.
  apply endsWith_refl.
Qed.

(** C8.  The rule-based optimizer is a pure function of the raw prompt, the
    style and the platform: two calls that agree on these return the same
    string, whatever the other fields of the options are.  For each of the
    four styles and six platforms its output includes the phrase of the
    style and the phrase of the platform, and ends with "Professional
    marketing content, high quality, brand appropriate.". *)
Theorem optimizePrompt_deterministic_with_descriptors :
  forall (p : string) (o : GenerationOptions),
    (forall o' : GenerationOptions,
        o'.(style) = o.(style) -> o'.(platform) = o.(platform) ->
        optimizePrompt p o' = optimizePrompt p o)
    /\ JS.includes (optimizePrompt p o) (stylePrompts o.(style)) = true
    /\ JS.includes (optimizePrompt p o) (platformPrompts o.(platform)) = true
    /\ JS.endsWith (optimizePrompt p o)
         "Professional marketing content, high quality, brand appropriate."
       = true.
Proof.
  intros p o. repeat split.
  - intros o'. apply optimizePrompt_only_reads_style_and_platform.
  - apply optimizePrompt_includes_style.
  - apply optimizePrompt_includes_platform.
  - apply optimizePrompt_endsWith_suffix.
Qed.

Lemma optimizePrompt_deterministic_with_descriptors_witness :
  optimizePrompt "A modern tech startup banner with gradient"
    {| prompt := "ignored"; style := realistic; platform := instagram;
       type := banner |}
  = optimizePrompt "A modern tech startup banner with gradient"
      (Fixtures.request "A modern tech startup banner with gradient").
Proof.
  apply (optimizePrompt_deterministic_with_descriptors
           "A modern tech startup banner with gradient"
           (Fixtures.request "A modern tech startup banner with gradient"));
    reflexivity.
Defined.

(** The scenario of the specification, evaluated. *)
Example optimizePrompt_scenario :
  optimizePrompt "A modern tech startup banner with gradient"
    (Fixtures.request "A modern tech startup banner with gradient")
  = "A modern tech startup banner with gradient. Style: photorealistic, high detail, professional photography. Platform: Instagram style, square format, visually appealing. Professional marketing content, high quality, brand appropriate.".
Proof. reflexivity. Qed.

(** ** The dispatcher *)

Lemma no_output_url_first (response : ImagesResponse) :
  no_output_url response = true ->
  JS.truthy_opt (first_url response) = false.
Proof.
  unfold no_output_url, first_url.
  destruct (data response) as [|img rest]; simpl.
  - reflexivity.
  - intros H. apply andb_true_iff in H. destruct H as [H _].
    now apply negb_true_iff in H.
Qed.

Lemma generateImage_rejected env o w e :
  env.(images_generate) (image_request o) = Rejected e ->
  generateImage env o w =
  {| completion :=
       Normal (image_failure
                 (JS.or_string e.(JS.message) "Failed to generate image"));
     world := w;
     events := [OpenAIImagesGenerate (image_request o);
                ConsoleError "OpenAI Image Generation Error:"] |}.
Proof.
  intros H. js_run. rewrite H. reflexivity.
Qed.

Lemma generateImage_first_without_url env o w response :
  env.(images_generate) (image_request o) = Fulfilled response ->
  JS.truthy_opt (first_url response) = false ->
  generateImage env o w =
  {| completion := Normal (image_failure "No image URL returned from OpenAI");
     world := w;
     events := [OpenAIImagesGenerate (image_request o);
                ConsoleError "OpenAI Image Generation Error:"] |}.
Proof.
  intros H Hu. js_run. rewrite H, Hu. reflexivity.
Qed.

Lemma generateImage_first_with_url env o w response :
  env.(images_generate) (image_request o) = Fulfilled response ->
  JS.truthy_opt (first_url response) = true ->
  exists rid w',
    generateImage env o w =
    {| completion := Normal {| success := true;
                               url := first_url response;
                               error := None;
                               result_id := Some rid |};
       world := w';
       events := [OpenAIImagesGenerate (image_request o)] |}
    /\ (w' = w \/ w' = tick w).
Proof.
  intros H Hu. js_run. rewrite H, Hu.
  destruct (JS.truthy_opt (first_revised_prompt response));
    js_run; eauto.
Qed.

Lemma generateVideo_run env o w :
  generateVideo env o w =
  {| completion :=
       Normal {| success := true;
                 url := Some ("https://example.com/video-placeholder-"
                                ++ JS.number_toString
                                     (env.(clock) w.(clock_reads))
                                ++ ".mp4");
                 error := None;
                 result_id :=
                   Some ("video-"
                           ++ JS.number_toString
                                (env.(clock) (S w.(clock_reads)))) |};
     world := tick (tick w);
     events := [SetTimeout 3000] |}.
Proof. reflexivity. Qed.

(** Every run of the image path returns a result. *)
Lemma generateImage_returns env o w :
  exists g, returned (generateImage env o w) = Some g.
Proof.
  destruct (env.(images_generate) (image_request o)) as [response|e] eqn:H.
  - destruct (JS.truthy_opt (first_url response)) eqn:Hu.
    + destruct (generateImage_first_with_url env o w response H Hu)
        as (rid & w' & -> & _).
      eexists; reflexivity.
    + rewrite (generateImage_first_without_url env o w response H Hu).
      eexists; reflexivity.
  - rewrite (generateImage_rejected env o w e H). eexists; reflexivity.
Qed.

(** The first thing the image path does is the provider request, with the
    optimized prompt. *)
Lemma generateImage_first_event env o w :
  exists rest,
    events (generateImage env o w)
    = OpenAIImagesGenerate (image_request o) :: rest.
Proof.
  destruct (env.(images_generate) (image_request o)) as [response|e] eqn:H.
  - destruct (JS.truthy_opt (first_url response)) eqn:Hu.
    + destruct (generateImage_first_with_url env o w response H Hu)
        as (rid & w' & -> & _).
      eexists; reflexivity.
    + rewrite (generateImage_first_without_url env o w response H Hu).
      eexists; reflexivity.
  - rewrite (generateImage_rejected env o w e H). eexists; reflexivity.
Qed.

(** A [catch] whose handler returns turns every throw of its body into a
    returned value. *)
Lemma catch_returns_handler_value {A} (body : Js A) (h : JS.Error -> Js A)
      (v : JS.Error -> A) (w : World) (e : JS.Error) :
  (forall e' w', returned (h e' w') = Some (v e')) ->
  thrown (body w) = Some e ->
  returned (catch body h w) = Some (v e).
Proof.
  intros Hh Hb. specialize (Hh e).
  unfold thrown in Hb. unfold returned in *. cbn [catch MonadExc_Js].
  unfold Js_catch.
  destruct (body w) as [[a|e0] w1 ev1]; cbn in Hb; [discriminate|].
  injection Hb as ->. specialize (Hh w1).
  destruct (h e w1) as [r w2 ev2]. exact Hh.
Qed.

(** C4, as stated, fails: when the provider answers with an empty list of
    images the image path returns a failure, but its message is the text of
    the error thrown in the [try] block, not "no output produced". *)
Lemma generateImage_no_output_produced_counterexample :
  no_output_url {| data := [] |} = true
  /\ returned Fixtures.dispatch_without_image
     = Some {| success := false;
               url := None;
               error := Some "No image URL returned from OpenAI";
               result_id := None |}
  /\ ~ (exists g, returned Fixtures.dispatch_without_image = Some g
                  /\ g.(error) = Some "no output produced").
Proof.
  split; [reflexivity|]. split; [reflexivity|].
  intros (g & Hg & He).
  vm_compute in Hg. injection Hg as <-. discriminate He.
Qed.

(** C4, amended.  For every image-path dispatch whose provider response
    contains no output URL (an image without a URL, or with an empty one,
    counts as none; so does an empty list), the returned result has
    success=false and the error message "No image URL returned from
    OpenAI". *)
Theorem generateImage_without_url_fails :
  forall env o w response,
    env.(images_generate) (image_request o) = Fulfilled response ->
    no_output_url response = true ->
    returned (generateImage env o w)
    = Some {| success := false;
              url := None;
              error := Some "No image URL returned from OpenAI";
              result_id := None |}.
Proof.
  intros env o w response H Hno.
  rewrite (generateImage_first_without_url env o w response H
             (no_output_url_first response Hno)).
  reflexivity.
Qed.

Lemma generateImage_without_url_fails_witness :
  returned (generateImage Fixtures.env_no_image (Fixtures.request "a banner")
              (Fixtures.start 0 10))
  = Some {| success := false;
            url := None;
            error := Some "No image URL returned from OpenAI";
            result_id := None |}.
Proof.
  apply (generateImage_without_url_fails Fixtures.env_no_image
           (Fixtures.request "a banner") (Fixtures.start 0 10)
           {| data := [] |});
    reflexivity.
Defined.

(** C5, as stated, fails: with an empty raw prompt the optimizer returns a
    string (the descriptors alone), the image path sends it to the provider
    and returns the provider's image: nothing is rejected and an external
    call is made. *)
Lemma optimizePrompt_empty_prompt_counterexample :
  optimizePrompt "" (Fixtures.request "")
  = ". Style: photorealistic, high detail, professional photography. Platform: Instagram style, square format, visually appealing. Professional marketing content, high quality, brand appropriate."
  /\ events Fixtures.dispatch_of_empty_prompt
     = [OpenAIImagesGenerate
          {| model := "dall-e-3";
             request_prompt := optimizePrompt "" (Fixtures.request "");
             size := "1024x1024";
             quality := "standard";
             n := 1 |}]
  /\ returned Fixtures.dispatch_of_empty_prompt
     = Some {| success := true;
               url := Some "https://cdn.example/img.png";
               error := None;
               result_id := Some "1700000000000" |}.
Proof. repeat split; reflexivity. Qed.

(** C5, amended.  The optimizer validates nothing and has no error result:
    for every raw prompt, the empty one included, and every style and
    platform (the types of its parameters hold the enumerated values only)
    it returns the raw prompt followed by ". Style: ", the descriptor of the
    style, ". Platform: ", the descriptor of the platform, and
    ". Professional marketing content, high quality, brand appropriate.";
    for the empty prompt that is the descriptors alone.  The image path then
    sends that text, made from the prompt of its options, to the provider as
    its first action, and returns a result. *)
Theorem optimizePrompt_accepts_every_prompt :
  forall env o w,
    (forall rawPrompt o',
        optimizePrompt rawPrompt o'
        = rawPrompt
            ++ ". Style: " ++ stylePrompts o'.(style)
            ++ ". Platform: " ++ platformPrompts o'.(platform)
            ++ ". Professional marketing content, high quality, brand appropriate.")
    /\ optimizePrompt "" o
       = ". Style: " ++ stylePrompts o.(style)
           ++ ". Platform: " ++ platformPrompts o.(platform)
           ++ ". Professional marketing content, high quality, brand appropriate."
    /\ (exists rest,
           events (generateImage env o w)
           = OpenAIImagesGenerate
               {| model := "dall-e-3";
                  request_prompt :=
                    o.(prompt)
                      ++ ". Style: " ++ stylePrompts o.(style)
                      ++ ". Platform: " ++ platformPrompts o.(platform)
                      ++ ". Professional marketing content, high quality, brand appropriate.";
                  size := "1024x1024";
                  quality := "standard";
                  n := 1 |} :: rest)
    /\ (exists rest,
           events (generateImage env o w)
           = OpenAIImagesGenerate
               {| model := "dall-e-3";
                  request_prompt := optimizePrompt o.(prompt) o;
                  size := "1024x1024";
                  quality := "standard";
                  n := 1 |} :: rest)
    /\ (exists g, returned (generateImage env o w) = Some g).
Proof.
  intros env o w. split; [|split; [|split; [|split]]].
  - intros rawPrompt o'. unfold optimizePrompt, marketing_suffix.
    reflexivity.
  - reflexivity.
  - destruct (generateImage_first_event env o w) as (rest & H).
    exists rest. rewrite H. reflexivity.
  - apply generateImage_first_event.
  - apply generateImage_returns.
Qed.

(** C7.  Both paths of the dispatcher return their failures as data.  The
    image path always returns a result; when the provider call is rejected
    with an error, the result has success=false and carries the message of
    the error, or "Failed to generate image" when that message is empty.
    The video path always returns a result.  In both methods the [catch]
    block turns an error thrown by any [try] body into such a result, so
    nothing is thrown to the caller. *)
Theorem dispatch_failures_are_returned :
  forall env o w,
    (exists g, returned (generateImage env o w) = Some g)
    /\ (forall e,
           env.(images_generate) (image_request o) = Rejected e ->
           returned (generateImage env o w)
           = Some {| success := false;
                     url := None;
                     error := Some (JS.or_string e.(JS.message)
                                      "Failed to generate image");
                     result_id := None |})
    /\ (exists g, returned (generateVideo env o w) = Some g)
    /\ (forall (body : Js GenerationResult) e,
           thrown (body w) = Some e ->
           (exists g,
               returned (catch body generateImage_catch w) = Some g
               /\ g.(success) = false
               /\ g.(error) = Some (JS.or_string e.(JS.message)
                                      "Failed to generate image"))
           /\ (exists g,
                  returned (catch body generateVideo_catch w) = Some g
                  /\ g.(success) = false
                  /\ g.(error)
                     = Some (JS.or_string e.(JS.message)
                               "Video generation is currently in development"))).
Proof.
  intros env o w. split; [apply generateImage_returns|]. split.
  - intros e H. now rewrite (generateImage_rejected env o w e H).
  - split; [rewrite generateVideo_run; eexists; reflexivity|].
    intros body e Hb. split; eexists; (split; [|split]).
    + apply (catch_returns_handler_value body generateImage_catch
               (fun e' => image_failure
                            (JS.or_string e'.(JS.message)
                               "Failed to generate image")));
        [reflexivity | exact Hb].
    + reflexivity.
    + reflexivity.
    + apply (catch_returns_handler_value body generateVideo_catch
               (fun e' => image_failure
                            (JS.or_string e'.(JS.message)
                               "Video generation is currently in development")));
        [reflexivity | exact Hb].
    + reflexivity.
    + reflexivity.
Qed.

Lemma dispatch_failures_are_returned_witness :
  returned (generateImage Fixtures.env_down (Fixtures.request "a banner")
              (Fixtures.start 0 10))
  = Some {| success := false;
            url := None;
            error := Some "Connection error.";
            result_id := None |}.
Proof.
  exact (proj1 (proj2 (dispatch_failures_are_returned Fixtures.env_down
                         (Fixtures.request "a banner") (Fixtures.start 0 10)))
           {| JS.message := "Connection error." |} eq_refl).
Defined.

(** ** The generator page: how a flow runs *)


Lemma usage_limit_reached_run c w :
  usage_limit_reached c w
  = {| completion := Normal (refuses c);
       world := w;
       events := check_events c |}.
Proof.
  unfold usage_limit_reached, refuses, check_events.
  destruct (subscription c); reflexivity.
Qed.

Lemma success_url_failed (g : GenerationResult) :
  g.(success) = false -> success_url g = None.
Proof. intros H. unfold success_url. now rewrite H. Qed.

Lemma handle_result_failed env c u data g w :
  success_url g = None ->
  handle_result env c u data g w
  = {| completion := Normal tt;
       world := w;
       events := [Alert (JS.or_undefined g.(error) "Generation failed")] |}.
Proof. intros H. unfold handle_result. rewrite H. reflexivity. Qed.

Lemma handle_result_saved env c u data g w result_url :
  success_url g = Some result_url ->
  let row := new_content_item c u data result_url
               (env.(clock) w.(clock_reads)) in
  let v := captured_usage c.(subscription) + 1 in
  let inserted :=
    supabase_insert_content_item env row
      (tick (with_generatedImage (Some result_url) w)) in
  let updated :=
    supabase_update_current_usage env v u.(id) inserted.(world) in
  handle_result env c u data g w
  = {| completion := Normal tt;
       world := updated.(world);
       events := write_events env row u.(id) v |}.
Proof.
  intros H. cbv zeta. unfold handle_result, write_events. rewrite H.
  js_run.
  destruct (insert_error env _); js_run;
    destruct (update_error env _ _); reflexivity.
Qed.

Lemma handle_result_returns env c u data g w :
  exists w' ev,
    handle_result env c u data g w
    = {| completion := Normal tt; world := w'; events := ev |}.
Proof.
  destruct (success_url g) as [result_url|] eqn:H.
  - rewrite (handle_result_saved env c u data g w result_url H). eauto.
  - rewrite (handle_result_failed env c u data g w H). eauto.
Qed.

(** A dispatch returns a result, leaves one of three traces and touches
    nothing but the clock. *)
Lemma dispatch_run env data o w :
  exists g w' ev,
    dispatch env data o w
    = {| completion := Normal g; world := w'; events := ev |}
    /\ dispatch_trace o ev
    /\ (w' = w \/ w' = tick w \/ w' = tick (tick w)).
Proof.
  unfold dispatch. destruct (is_video (form_type data)).
  - rewrite generateVideo_run. do 3 eexists.
    split; [reflexivity|]. split; [constructor|tauto].
  - destruct (env.(images_generate) (image_request o))
      as [response|e] eqn:H.
    + destruct (JS.truthy_opt (first_url response)) eqn:Hu.
      * destruct (generateImage_first_with_url env o w response H Hu)
          as (rid & w' & -> & Hw).
        do 3 eexists. split; [reflexivity|]. split; [constructor|tauto].
      * rewrite (generateImage_first_without_url env o w response H Hu).
        do 3 eexists. split; [reflexivity|]. split; [constructor|tauto].
    + rewrite (generateImage_rejected env o w e H).
      do 3 eexists. split; [reflexivity|]. split; [constructor|tauto].
Qed.

Lemma onSubmit_signed_out env c data w :
  c.(user) = None ->
  onSubmit env c data w
  = {| completion := Normal tt; world := w; events := [] |}.
Proof. intros H. unfold onSubmit. rewrite H. reflexivity. Qed.

Lemma onSubmit_refused env c data w u :
  c.(user) = Some u -> refuses c = true ->
  onSubmit env c data w
  = {| completion := Normal tt;
       world := w;
       events := check_events c ++ [Alert limit_message] |}.
Proof.
  intros Hu Hr. unfold onSubmit. rewrite Hu.
  cbn [bind Monad_Js]. unfold Js_bind.
  rewrite usage_limit_reached_run, Hr. reflexivity.
Qed.

(** A submission that passes the guard: the trace of the guard, then the
    dispatch, then what the handler does with the result. *)
Lemma onSubmit_dispatched env c data w u g w1 ev :
  c.(user) = Some u -> refuses c = false ->
  dispatch env data (options_of c data) (started w)
  = {| completion := Normal g; world := w1; events := ev |} ->
  onSubmit env c data w
  = {| completion := Normal tt;
       world :=
         with_isGenerating false
           (handle_result env c u data g w1).(world);
       events :=
         check_events c
           ++ ev
           ++ DispatchReturned g
           :: (handle_result env c u data g w1).(events) |}.
Proof.
  intros Hu Hr Hd. unfold onSubmit. rewrite Hu.
  cbn [bind ret catch Monad_Js MonadExc_Js].
  unfold Js_bind at 1. rewrite usage_limit_reached_run, Hr.
  destruct (handle_result_returns env c u data g w1) as (w2 & ev2 & Hh).
  rewrite Hh.
  unfold Js_bind, Js_finally, Js_catch, setIsGenerating, setGeneratedImage,
    emit.
  fold (started w). rewrite Hd, Hh.
  cbn [completion world events app]. rewrite app_nil_r. reflexivity.
Qed.

Lemma dispatch_trace_facts o ev :
  dispatch_trace o ev ->
  existsb is_generation_call ev = true
  /\ existsb is_store_write ev = false
  /\ existsb is_usage_check ev = false
  /\ steps ev = [Dispatch]
  /\ (forall g, ~ In (DispatchReturned g) ev).
Proof.
  intros [ | | ]; repeat split; try reflexivity;
    intros g H; cbn in H; intuition discriminate.
Qed.

Lemma check_events_facts c :
  existsb is_generation_call (check_events c) = false
  /\ existsb is_store_write (check_events c) = false
  /\ (forall g, ~ In (DispatchReturned g) (check_events c))
  /\ (steps (check_events c) = [] \/ steps (check_events c) = [Authorize]).
Proof.
  unfold check_events. destruct (subscription c); cbn.
  - repeat split; try tauto. intros g H. intuition discriminate.
  - repeat split; tauto.
Qed.

Lemma write_events_facts env row uid v :
  existsb is_generation_call (write_events env row uid v) = false
  /\ existsb is_usage_check (write_events env row uid v) = false
  /\ steps (write_events env row uid v) = [RecordContent; RecordUsage]
  /\ (forall g, ~ In (DispatchReturned g) (write_events env row uid v)).
Proof.
  unfold write_events. destruct (insert_error env row); cbn;
    repeat split; try reflexivity; intros g H; intuition discriminate.
Qed.

(** Every submission of a signed-in user that passes the guard has this
    shape. *)
Lemma onSubmit_passed env c data w u :
  c.(user) = Some u -> refuses c = false ->
  exists g ev wh evh,
    onSubmit env c data w
    = {| completion := Normal tt;
         world := with_isGenerating false wh;
         events := check_events c ++ ev ++ DispatchReturned g :: evh |}
    /\ dispatch_trace (options_of c data) ev
    /\ handled env c u w g wh evh.
Proof.
  intros Hu Hr.
  destruct (dispatch_run env data (options_of c data) (started w))
    as (g & w1 & ev & Hd & Ht & Hw).
  exists g, ev, (handle_result env c u data g w1).(world),
    (handle_result env c u data g w1).(events).
  split; [exact (onSubmit_dispatched env c data w u g w1 ev Hu Hr Hd)|].
  split; [exact Ht|].
  assert (Hc : w1.(content_items) = w.(content_items)
               /\ w1.(subscriptions) = w.(subscriptions)
               /\ (w1.(clock_reads) >= w.(clock_reads))%nat).
  { destruct Hw as [->|[->| ->]]; cbn; repeat split; lia. }
  destruct Hc as (Hci & Hsub & _).
  destruct (success_url g) as [result_url|] eqn:Hg.
  - rewrite (handle_result_saved env c u data g w1 result_url Hg).
    cbn [world events].
    apply handled_success with (result_url := result_url);
      [exact Hg | reflexivity | | ].
    + intros Hi. unfold supabase_update_current_usage,
        supabase_insert_content_item. rewrite Hi.
      destruct (update_error env _ _); cbn; now rewrite Hci.
    + intros Hup. unfold supabase_update_current_usage. rewrite Hup.
      unfold supabase_insert_content_item.
      destruct (insert_error env _); cbn; now rewrite Hsub.
  - rewrite (handle_result_failed env c u data g w1 Hg).
    cbn [world events]. now apply handled_failure.
Qed.

(** Two flows, evaluated: usage 10 of 10 is refused without a dispatch;
    usage 3 of 10 runs to the end and leaves the page idle. *)
Example refused_flow_events :
  (onSubmit Fixtures.env_image (Fixtures.page 10 10) (Fixtures.form image)
     (Fixtures.start 10 10)).(events)
  = [UsageChecked 10 10; Alert limit_message].
Proof. reflexivity. Qed.

Example complete_flow_world :
  Fixtures.complete_flow.(world)
  = {| content_items :=
         [new_content_item (Fixtures.page 3 10) Fixtures.alice
            (Fixtures.form image) "https://cdn.example/img.png"
            1700000000001];
       subscriptions := [Fixtures.quota 4 10];
       clock_reads := 2;
       generatedImage := Some "https://cdn.example/img.png";
       isGenerating := false |}.
Proof. reflexivity. Qed.

(** ** The usage guard *)

Lemma over_limit_spec (q : Subscription) :
  over_limit q = true <-> q.(current_usage) >= q.(usage_limit).
Proof. unfold over_limit. rewrite Z.geb_le. lia. Qed.

Lemma passed_calls_generation env c data w u :
  c.(user) = Some u -> refuses c = false ->
  existsb is_generation_call (events (onSubmit env c data w)) = true.
Proof.
  intros Hu Hr.
  destruct (onSubmit_passed env c data w u Hu Hr)
    as (g & ev & wh & evh & -> & Ht & _).
  cbn [events]. rewrite !existsb_app.
  destruct (dispatch_trace_facts _ _ Ht) as (-> & _).
  now rewrite orb_true_r.
Qed.

Lemma refused_calls_nothing env c data w u :
  c.(user) = Some u -> refuses c = true ->
  existsb is_generation_call (events (onSubmit env c data w)) = false.
Proof.
  intros Hu Hr. rewrite (onSubmit_refused env c data w u Hu Hr).
  cbn [events]. rewrite existsb_app.
  destruct (check_events_facts c) as (-> & _). reflexivity.
Qed.

(** C1.  For a signed-in user and every quota state, a submission makes no
    generation call exactly when current_usage >= usage_limit, and makes one
    exactly when current_usage < usage_limit, in particular at
    current_usage = usage_limit - 1.  A refused submission does nothing but
    compare the two numbers and show the limit message. *)
Theorem usage_guard_refuses_at_limit :
  forall env op data w u q,
    let c := {| user := Some u;
                subscription := Some q;
                optimizedPrompt := op |} in
    let run := onSubmit env c data w in
    (existsb is_generation_call run.(events) = false
     <-> q.(current_usage) >= q.(usage_limit))
    /\ (existsb is_generation_call run.(events) = true
        <-> q.(current_usage) < q.(usage_limit))
    /\ (q.(current_usage) = q.(usage_limit) - 1 ->
        existsb is_generation_call run.(events) = true)
    /\ (q.(current_usage) >= q.(usage_limit) ->
        run.(events) = [UsageChecked q.(current_usage) q.(usage_limit);
                        Alert limit_message]
        /\ run.(world) = w).
Proof.
  intros env op data w u q c run.
  assert (Hu : c.(user) = Some u) by reflexivity.
  pose proof (over_limit_spec q) as Ho.
  destruct (over_limit q) eqn:Hq.
  - assert (Hr : refuses c = true) by exact Hq.
    assert (Hge : q.(current_usage) >= q.(usage_limit)) by now apply Ho.
    pose proof (refused_calls_nothing env c data w u Hu Hr) as Hn.
    fold run in Hn. rewrite Hn.
    repeat split; intros; try lia; try discriminate;
      unfold run; now rewrite (onSubmit_refused env c data w u Hu Hr).
  - assert (Hr : refuses c = false) by exact Hq.
    assert (Hlt : q.(current_usage) < q.(usage_limit)).
    { destruct (Z.lt_ge_cases q.(current_usage) q.(usage_limit)) as [|Hge];
        [assumption|].
      assert (false = true) by (apply Ho; lia). discriminate. }
    pose proof (passed_calls_generation env c data w u Hu Hr) as Hn.
    fold run in Hn. rewrite Hn.
    repeat split; intros; try lia; try discriminate; reflexivity.
Qed.

Lemma usage_guard_refuses_at_limit_witness :
  existsb is_generation_call
    (onSubmit Fixtures.env_image (Fixtures.page 9 10) (Fixtures.form image)
       (Fixtures.start 9 10)).(events) = true
  /\ (onSubmit Fixtures.env_image (Fixtures.page 10 10) (Fixtures.form image)
        (Fixtures.start 10 10)).(events)
     = [UsageChecked 10 10; Alert limit_message].
Proof.
  split.
  - refine (proj1 (proj2 (proj2
              (usage_guard_refuses_at_limit Fixtures.env_image ""
                 (Fixtures.form image) (Fixtures.start 9 10)
                 Fixtures.alice (Fixtures.quota 9 10)))) _).
    reflexivity.
  - refine (proj1 (proj2 (proj2 (proj2
              (usage_guard_refuses_at_limit Fixtures.env_image ""
                 (Fixtures.form image) (Fixtures.start 10 10)
                 Fixtures.alice (Fixtures.quota 10 10)))) _)).
    cbn. lia.
Defined.

(** C9.  When the subscription is absent the comparison of the guard is not
    evaluated and the submission of a signed-in user always reaches the
    service.  A submission of a signed-in user that makes no generation call
    has a subscription, and that subscription is at its limit. *)
Theorem no_subscription_no_usage_check :
  forall env op data w u,
    let c := {| user := Some u;
                subscription := None;
                optimizedPrompt := op |} in
    let run := onSubmit env c data w in
    existsb is_usage_check run.(events) = false
    /\ existsb is_generation_call run.(events) = true
    /\ (forall c',
           c'.(user) = Some u ->
           existsb is_generation_call (onSubmit env c' data w).(events)
           = false ->
           exists q, c'.(subscription) = Some q
                     /\ q.(current_usage) >= q.(usage_limit)).
Proof.
  intros env op data w u c run.
  assert (Hu : c.(user) = Some u) by reflexivity.
  assert (Hr : refuses c = false) by reflexivity.
  split; [|split].
  - unfold run.
    destruct (onSubmit_passed env c data w u Hu Hr)
      as (g & ev & wh & evh & -> & Ht & Hh).
    cbn [events check_events subscription c app].
    rewrite existsb_app.
    destruct (dispatch_trace_facts _ _ Ht) as (_ & _ & -> & _).
    cbn [orb existsb is_usage_check].
    destruct Hh as [wh _ _ _ | wh result_url row _ _ _ _];
      [reflexivity|].
    now destruct (write_events_facts env row u.(id)
                    (captured_usage c.(subscription) + 1)) as (_ & -> & _).
  - exact (passed_calls_generation env c data w u Hu Hr).
  - intros c' Hu' Hn.
    destruct (refuses c') eqn:Hr'.
    + unfold refuses in Hr'. destruct (subscription c') as [q|];
        [|discriminate].
      exists q. split; [reflexivity|]. now apply over_limit_spec.
    + rewrite (passed_calls_generation env c' data w u Hu' Hr') in Hn.
      discriminate.
Qed.

Lemma no_subscription_no_usage_check_witness :
  exists q, (Fixtures.page 10 10).(subscription) = Some q
            /\ q.(current_usage) >= q.(usage_limit).
Proof.
  refine (proj2 (proj2
            (no_subscription_no_usage_check Fixtures.env_image ""
               (Fixtures.form image) (Fixtures.start 10 10) Fixtures.alice))
            (Fixtures.page 10 10) _ _); reflexivity.
Defined.

(** ** Order of the steps *)



(** ** A failed dispatch *)

(** C6.  When the service returned a result with success=false, the flow
    makes no store write: neither the insert into the content items nor the
    usage update.  Both tables are as they were. *)
Theorem failed_dispatch_writes_nothing :
  forall env c data w g,
    In (DispatchReturned g) (onSubmit env c data w).(events) ->
    g.(success) = false ->
    existsb is_store_write (onSubmit env c data w).(events) = false
    /\ (onSubmit env c data w).(world).(content_items) = w.(content_items)
    /\ (onSubmit env c data w).(world).(subscriptions) = w.(subscriptions).
Proof.
  intros env c data w g Hin Hg.
  destruct (user c) as [u|] eqn:Hu.
  - destruct (refuses c) eqn:Hr.
    + rewrite (onSubmit_refused env c data w u Hu Hr) in *.
      cbn [events world] in *. exfalso.
      apply in_app_or in Hin. destruct Hin as [Hin|Hin].
      * now apply (check_events_facts c) in Hin.
      * cbn in Hin. intuition discriminate.
    + destruct (onSubmit_passed env c data w u Hu Hr)
        as (g' & ev & wh & evh & Hrun & Ht & Hh).
      rewrite Hrun in *. cbn [events world] in *.
      destruct (dispatch_trace_facts _ _ Ht) as (_ & Hw & _ & _ & Hnd).
      assert (Hevh : forall g0, ~ In (DispatchReturned g0) evh).
      { destruct Hh as [wh _ _ _ | wh result_url row _ _ _ _].
        - intros g0 H. cbn in H. intuition discriminate.
        - apply write_events_facts. }
      assert (g' = g) as ->.
      { apply in_app_or in Hin. destruct Hin as [Hin|Hin];
          [now apply (check_events_facts c) in Hin|].
        apply in_app_or in Hin. destruct Hin as [Hin|Hin];
          [now apply Hnd in Hin|].
        destruct Hin as [Hin|Hin]; [now injection Hin|].
        now apply Hevh in Hin. }
      pose proof (success_url_failed g Hg) as Hnone.
      destruct Hh as [wh _ Hci Hsub | wh result_url row Hsome _ _ _];
        [|congruence].
      rewrite !existsb_app. rewrite Hw.
      destruct (check_events_facts c) as (_ & -> & _).
      cbn. auto.
  - rewrite (onSubmit_signed_out env c data w Hu) in Hin.
    destruct Hin.
Qed.

Lemma failed_dispatch_writes_nothing_witness :
  existsb is_store_write Fixtures.failed_flow.(events) = false
  /\ Fixtures.failed_flow.(world).(content_items) = []
  /\ Fixtures.failed_flow.(world).(subscriptions) = [Fixtures.quota 3 10].
Proof.
  apply (failed_dispatch_writes_nothing Fixtures.env_no_image
           (Fixtures.page 3 10) (Fixtures.form image) (Fixtures.start 3 10)
           (image_failure "No image URL returned from OpenAI")).
  - vm_compute. do 3 right. left. reflexivity.
  - reflexivity.
Defined.

(** ** The usage update *)

Lemma or_zero_id (n : Z) : JS.or_zero n = n.
Proof.
  unfold JS.or_zero. destruct (Z.eqb_spec n 0); congruence.
Qed.

Lemma captured_usage_plus_one (sub : option Subscription) :
  captured_usage sub + 1
  = match sub with
    | Some q => q.(current_usage) + 1
    | None => 1
    end.
Proof.
  destruct sub as [q|]; cbn; [now rewrite or_zero_id | reflexivity].
Qed.

Lemma update_rows_sets (v : Z) (uid : string) (rows : list Subscription) :
  forall s, In s (update_rows v uid rows) ->
            s.(user_id) = uid -> s.(current_usage) = v.
Proof.
  intros s Hin Hid. unfold update_rows in Hin.
  apply in_map_iff in Hin. destruct Hin as (s0 & Hs & _).
  destruct (String.eqb_spec s0.(user_id) uid) as [Heq|Hne].
  - now subst s.
  - subst s. contradiction.
Qed.

Lemma update_rows_idempotent (v : Z) (uid : string)
      (rows : list Subscription) :
  update_rows v uid (update_rows v uid rows) = update_rows v uid rows.
Proof.
  unfold update_rows. rewrite map_map. apply map_ext. intros s.
  destruct (String.eqb s.(user_id) uid) eqn:H; cbn; now rewrite H.
Qed.

(** C3, as stated, fails: the update writes the usage captured by the
    handler plus one.  Two updates from the same handler, and two whole
    generations submitted through it, leave the stored usage larger by 1,
    not by 2. *)
Lemma update_usage_twice_counterexample :
  map current_usage (Fixtures.start 3 10).(subscriptions) = [3]
  /\ map current_usage Fixtures.updated_once.(world).(subscriptions) = [4]
  /\ map current_usage Fixtures.updated_twice.(world).(subscriptions) = [4]
  /\ map current_usage Fixtures.updated_twice.(world).(subscriptions)
     <> [3 + 2]
  /\ length Fixtures.second_flow.(world).(content_items) = 2%nat
  /\ map current_usage Fixtures.second_flow.(world).(subscriptions) = [4].
Proof.
  repeat split; try reflexivity.
  intros H. vm_compute in H. discriminate H.
Qed.

(** C3, amended.  The usage update is a set, not an increment of the stored
    value: each call asks the store to set current_usage, in the rows of the
    user, to the usage of the subscription captured by the handler plus 1
    (to 1 when there is no subscription).  When the store accepts the
    update, the rows of the user hold that value whatever they held before,
    and a second call from the same handler changes nothing more. *)
Theorem update_usage_sets_captured_plus_one :
  forall env c u w,
    let v := match c.(subscription) with
             | Some q => q.(current_usage) + 1
             | None => 1
             end in
    let once := update_usage env c u w in
    let twice := update_usage env c u once.(world) in
    once.(events) = [SupabaseUpdate u.(id) v]
    /\ (env.(update_error) u.(id) v = None ->
        once.(world).(subscriptions) = update_rows v u.(id) w.(subscriptions)
        /\ (forall s, In s once.(world).(subscriptions) ->
                      s.(user_id) = u.(id) -> s.(current_usage) = v)
        /\ twice.(world).(subscriptions) = once.(world).(subscriptions)).
Proof.
  intros env c u w v once twice.
  assert (Hv : captured_usage c.(subscription) + 1 = v)
    by apply captured_usage_plus_one.
  assert (Hrun : forall w0,
             update_usage env c u w0
             = {| completion := Normal tt;
                  world := (supabase_update_current_usage env v u.(id) w0)
                             .(world);
                  events := [SupabaseUpdate u.(id) v] |}).
  { intros w0. unfold update_usage. rewrite Hv. js_run.
    destruct (update_error env (id u) v); reflexivity. }
  unfold twice, once. rewrite !Hrun. cbn [events world].
  split; [reflexivity|]. intros Hok.
  unfold supabase_update_current_usage. rewrite Hok.
  cbn [world subscriptions with_subscriptions].
  split; [reflexivity|]. split.
  - apply update_rows_sets.
  - apply update_rows_idempotent.
Qed.

Lemma update_usage_sets_captured_plus_one_witness :
  (update_usage Fixtures.env_image (Fixtures.page 3 10) Fixtures.alice
     (Fixtures.start 7 10)).(world).(subscriptions)
  = update_rows 4 "u1" [Fixtures.quota 7 10].
Proof.
  refine (proj1 (proj2
            (update_usage_sets_captured_plus_one Fixtures.env_image
               (Fixtures.page 3 10) Fixtures.alice (Fixtures.start 7 10))
            _)).
  reflexivity.
Defined.

(** ** The video path *)

(** C10.  For every input the video path waits, calls no provider and
    returns success=true with the URL
    "https://example.com/video-placeholder-<timestamp>.mp4" made from the
    clock; no run of it returns success=false.  Hence every video submission
    of a signed-in user that passes the guard asks the store for a content
    item whose output URL is that placeholder and for the usage update; the
    item is in the table when the insert is accepted and the usage is set
    when the update is accepted. *)
Theorem generateVideo_always_succeeds :
  forall env o w,
    let placeholder :=
      "https://example.com/video-placeholder-"
        ++ JS.number_toString (env.(clock) w.(clock_reads)) ++ ".mp4" in
    let result :=
      {| success := true;
         url := Some placeholder;
         error := None;
         result_id :=
           Some ("video-"
                   ++ JS.number_toString
                        (env.(clock) (S w.(clock_reads)))) |} in
    generateVideo env o w
    = {| completion := Normal result;
         world := tick (tick w);
         events := [SetTimeout 3000] |}
    /\ (forall g, returned (generateVideo env o w) = Some g ->
                  g.(success) = true)
    /\ (forall c data u,
           c.(user) = Some u ->
           data.(form_type) = video ->
           refuses c = false ->
           let now := env.(clock) (S (S w.(clock_reads))) in
           let row := new_content_item c u data placeholder now in
           let v := captured_usage c.(subscription) + 1 in
           let run := onSubmit env c data w in
           run.(events)
           = (check_events c
                ++ SetTimeout 3000
                :: DispatchReturned result
                :: write_events env row u.(id) v)%list
           /\ row.(output_url) = placeholder
           /\ (env.(insert_error) row = None ->
               run.(world).(content_items)
               = (w.(content_items) ++ [row])%list)
           /\ (env.(update_error) u.(id) v = None ->
               run.(world).(subscriptions)
               = update_rows v u.(id) w.(subscriptions))).
Proof.
  intros env o w placeholder result.
  split; [apply generateVideo_run|]. split.
  - intros g. rewrite generateVideo_run. cbn. now intros [= <-].
  - intros c data u Hu Hv Hr now row v run.
    assert (Hd : dispatch env data (options_of c data) (started w)
                 = {| completion := Normal result;
                      world := tick (tick (started w));
                      events := [SetTimeout 3000] |}).
    { unfold dispatch. rewrite Hv. cbn [is_video].
      apply generateVideo_run. }
    assert (Hs : success_url result = Some placeholder) by reflexivity.
    unfold run.
    rewrite (onSubmit_dispatched env c data w u result _ _ Hu Hr Hd).
    rewrite (handle_result_saved env c u data result _ placeholder Hs).
    cbn [events world clock_reads tick started with_generatedImage
         with_isGenerating].
    fold now. fold row. fold v.
    split; [reflexivity|]. split; [reflexivity|]. split.
    + intros Hi.
      unfold supabase_update_current_usage, supabase_insert_content_item.
      rewrite Hi. destruct (update_error env _ _); reflexivity.
    + intros Hup.
      unfold supabase_update_current_usage. rewrite Hup.
      unfold supabase_insert_content_item.
      destruct (insert_error env _); reflexivity.
Qed.

Lemma generateVideo_always_succeeds_witness :
  map output_url Fixtures.video_flow.(world).(content_items)
  = ["https://example.com/video-placeholder-1700000000000.mp4"]
  /\ map current_usage Fixtures.video_flow.(world).(subscriptions) = [4].
Proof.
  pose proof (proj2 (proj2
                (generateVideo_always_succeeds Fixtures.env_down
                   (Fixtures.request "a banner") (Fixtures.start 3 10)))
                (Fixtures.page 3 10) (Fixtures.form video) Fixtures.alice
                eq_refl eq_refl eq_refl) as H.
  cbv zeta in H. destruct H as (_ & _ & Hi & Hup).
  unfold Fixtures.video_flow.
  rewrite (Hi eq_refl), (Hup eq_refl). split; reflexivity.
Defined.

(** ** More on the service *)

Lemma or_string_truthy (a b : string) :
  JS.truthy b = true -> JS.truthy (JS.or_string a b) = true.
Proof.
  intros Hb. unfold JS.or_string. destruct (JS.truthy a) eqn:Ha; assumption.
Qed.

(** The four outcomes of the image path, with the world they leave. *)
Lemma generateImage_cases env o w :
  (exists msg,
      JS.truthy msg = true
      /\ generateImage env o w
         = {| completion := Normal (image_failure msg);
              world := w;
              events := [OpenAIImagesGenerate (image_request o);
                         ConsoleError "OpenAI Image Generation Error:"] |})
  \/ (exists u rid w',
         JS.truthy u = true
         /\ (w' = w \/ w' = tick w)
         /\ generateImage env o w
            = {| completion := Normal {| success := true;
                                         url := Some u;
                                         error := None;
                                         result_id := Some rid |};
                 world := w';
                 events := [OpenAIImagesGenerate (image_request o)] |}).
Proof.
  destruct (env.(images_generate) (image_request o)) as [response|e] eqn:H.
  - destruct (JS.truthy_opt (first_url response)) eqn:Hu.
    + right.
      destruct (generateImage_first_with_url env o w response H Hu)
        as (rid & w' & Hrun & Hw).
      destruct (first_url response) as [u|] eqn:Hf; [|discriminate].
      exists u, rid, w'. repeat split; assumption.
    + left. exists "No image URL returned from OpenAI".
      split; [reflexivity|].
      exact (generateImage_first_without_url env o w response H Hu).
  - left. exists (JS.or_string e.(JS.message) "Failed to generate image").
    split; [now apply or_string_truthy|].
    exact (generateImage_rejected env o w e H).
Qed.

(** X2.  Every result of the service is well formed: a success carries a
    non-empty URL and no error, a failure carries a non-empty error message
    and no URL. *)
Theorem service_results_well_formed :
  forall env o w,
    (exists g, returned (generateImage env o w) = Some g
               /\ well_formed_result g = true)
    /\ (exists g, returned (generateVideo env o w) = Some g
                  /\ well_formed_result g = true).
Proof.
  intros env o w. split.
  - destruct (generateImage_cases env o w)
      as [(msg & Hm & ->) | (u & rid & w' & Hu & _ & ->)].
    + eexists. split; [reflexivity|]. cbn. exact Hm.
    + eexists. split; [reflexivity|]. cbn. now rewrite Hu.
  - rewrite generateVideo_run. eexists. split; reflexivity.
Qed.

(** X3.  The service keeps to itself: a dispatch changes nothing of the
    store or of the page (only the clock advances, by at most one read on the
    image path and by two on the video path), and it leaves in the trace
    nothing but its provider request or timer and its console log. *)
Theorem service_touches_only_the_clock :
  forall env o w,
    let img := generateImage env o w in
    let vid := generateVideo env o w in
    (img.(world).(content_items) = w.(content_items)
     /\ img.(world).(subscriptions) = w.(subscriptions)
     /\ img.(world).(generatedImage) = w.(generatedImage)
     /\ img.(world).(isGenerating) = w.(isGenerating)
     /\ (w.(clock_reads) <= img.(world).(clock_reads) <= S w.(clock_reads))%nat
     /\ forallb is_service_event img.(events) = true)
    /\ (vid.(world).(content_items) = w.(content_items)
        /\ vid.(world).(subscriptions) = w.(subscriptions)
        /\ vid.(world).(generatedImage) = w.(generatedImage)
        /\ vid.(world).(isGenerating) = w.(isGenerating)
        /\ vid.(world).(clock_reads) = S (S w.(clock_reads))
        /\ vid.(events) = [SetTimeout 3000]).
Proof.
  intros env o w img vid. split.
  - unfold img.
    destruct (generateImage_cases env o w)
      as [(msg & _ & ->) | (u & rid & w' & _ & [-> | ->] & ->)];
      cbn; repeat split; lia.
  - unfold vid. rewrite generateVideo_run. cbn. repeat split.
Qed.

(** ** More on the flow *)

(** A dispatch, by the type of the form: its result is well formed, its
    trace is its one generation call, with the console log of a failed image
    request, and it leaves the page and the store as they were. *)
Lemma dispatch_typed env c data w :
  exists g w1 ev,
    dispatch env data (options_of c data) w
    = {| completion := Normal g; world := w1; events := ev |}
    /\ well_formed_result g = true
    /\ (ev = [generation_call_of c data]
        \/ ev = [generation_call_of c data;
                 ConsoleError "OpenAI Image Generation Error:"])
    /\ w1.(content_items) = w.(content_items)
    /\ w1.(subscriptions) = w.(subscriptions)
    /\ w1.(generatedImage) = w.(generatedImage).
Proof.
  unfold dispatch, generation_call_of.
  destruct (is_video (form_type data)).
  - rewrite generateVideo_run. do 3 eexists.
    split; [reflexivity|]. cbn. repeat split. now left.
  - destruct (generateImage_cases env (options_of c data) w)
      as [(msg & Hm & ->) | (u & rid & w' & Hu & Hw & ->)].
    + do 3 eexists. split; [reflexivity|]. cbn. repeat split;
        [exact Hm | now right].
    + do 3 eexists. split; [reflexivity|]. cbn.
      rewrite Hu. destruct Hw as [-> | ->]; repeat split; now left.
Qed.

Lemma filter_generation_call_dispatch c data ev :
  ev = [generation_call_of c data]
  \/ ev = [generation_call_of c data;
           ConsoleError "OpenAI Image Generation Error:"] ->
  filter is_generation_call ev = [generation_call_of c data]
  /\ (forall g, ~ In (DispatchReturned g) ev)
  /\ (forall uid v, ~ In (SupabaseUpdate uid v) ev)
  /\ (forall row, ~ In (SupabaseInsert row) ev)
  /\ (forall params, In (OpenAIImagesGenerate params) ev ->
                     params = image_request (options_of c data))
  /\ existsb is_alert ev = false.
Proof.
  unfold generation_call_of.
  intros [-> | ->]; destruct (is_video (form_type data));
    (split; [reflexivity|]);
    (split; [intros g H; in_trace H|]);
    (split; [intros uid v H; in_trace H|]);
    (split; [intros row H; in_trace H|]);
    (split; [|reflexivity]);
    intros params H; in_trace H; now injection H.
Qed.

Lemma check_events_quiet c :
  filter is_generation_call (check_events c) = []
  /\ (forall uid v, ~ In (SupabaseUpdate uid v) (check_events c))
  /\ (forall row, ~ In (SupabaseInsert row) (check_events c))
  /\ (forall params, ~ In (OpenAIImagesGenerate params) (check_events c))
  /\ existsb is_alert (check_events c) = false.
Proof.
  unfold check_events. destruct (subscription c);
    (split; [reflexivity|]);
    (split; [intros uid v H; in_trace H|]);
    (split; [intros row H; in_trace H|]);
    (split; [intros params H; in_trace H|reflexivity]).
Qed.

Lemma write_events_quiet env row uid v :
  filter is_generation_call (write_events env row uid v) = []
  /\ (forall params,
         ~ In (OpenAIImagesGenerate params) (write_events env row uid v))
  /\ existsb is_alert (write_events env row uid v) = false
  /\ (forall uid' v', In (SupabaseUpdate uid' v')
                         (write_events env row uid v) ->
                      uid' = uid /\ v' = v)
  /\ (forall row', In (SupabaseInsert row') (write_events env row uid v) ->
                   row' = row)
  /\ In (SupabaseInsert row) (write_events env row uid v)
  /\ In (SupabaseUpdate uid v) (write_events env row uid v).
Proof.
  unfold write_events. destruct (insert_error env row);
    (split; [reflexivity|]);
    (split; [intros params H; in_trace H|]);
    (split; [reflexivity|]);
    (split; [intros uid' v' H; in_trace H; now injection H|]);
    (split; [intros row' H; in_trace H; now injection H|]);
    cbn; tauto.
Qed.

(** What every submission that passes the guard is made of. *)
Lemma onSubmit_detail env c data w u :
  c.(user) = Some u -> refuses c = false ->
  exists g w1 ev,
    well_formed_result g = true
    /\ (ev = [generation_call_of c data]
        \/ ev = [generation_call_of c data;
                 ConsoleError "OpenAI Image Generation Error:"])
    /\ w1.(content_items) = w.(content_items)
    /\ w1.(subscriptions) = w.(subscriptions)
    /\ w1.(generatedImage) = None
    /\ onSubmit env c data w
       = {| completion := Normal tt;
            world :=
              with_isGenerating false
                (handle_result env c u data g w1).(world);
            events :=
              check_events c
                ++ ev
                ++ DispatchReturned g
                :: (handle_result env c u data g w1).(events) |}.
Proof.
  intros Hu Hr.
  destruct (dispatch_typed env c data (started w))
    as (g & w1 & ev & Hd & Hg & Hev & Hci & Hsub & Hgi).
  exists g, w1, ev. repeat split; try assumption.
  exact (onSubmit_dispatched env c data w u g w1 ev Hu Hr Hd).
Qed.

Lemma onSubmit_generation_calls env c data w u :
  c.(user) = Some u -> refuses c = false ->
  filter is_generation_call (onSubmit env c data w).(events)
  = [generation_call_of c data].
Proof.
  intros Hu Hr.
  destruct (onSubmit_detail env c data w u Hu Hr)
    as (g & w1 & ev & _ & Hev & _ & _ & _ & ->).
  cbn [events]. rewrite !filter_app.
  destruct (check_events_quiet c) as (-> & _).
  destruct (filter_generation_call_dispatch c data ev Hev) as (-> & _).
  cbn [filter is_generation_call app].
  destruct (success_url g) as [result_url|] eqn:Hg.
  - rewrite (handle_result_saved env c u data g w1 result_url Hg).
    cbn [events].
    now destruct (write_events_quiet env
                    (new_content_item c u data result_url
                       (env.(clock) w1.(clock_reads)))
                    u.(id) (captured_usage c.(subscription) + 1))
      as (-> & _).
  - rewrite (handle_result_failed env c u data g w1 Hg). reflexivity.
Qed.

(** X1.  A submission that passes the guard makes exactly one generation
    call, chosen by the type of the form alone: the timer of the video path
    for a video, one image request built from the form for every other type.
    It never makes both, and never a second attempt. *)
Theorem one_generation_call_routed_by_type :
  forall env c data w u,
    c.(user) = Some u -> refuses c = false ->
    filter is_generation_call (onSubmit env c data w).(events)
    = [if is_video data.(form_type)
       then SetTimeout 3000
       else OpenAIImagesGenerate (image_request (options_of c data))].
Proof.
  intros env c data w u Hu Hr.
  exact (onSubmit_generation_calls env c data w u Hu Hr).
Qed.

Lemma one_generation_call_routed_by_type_witness :
  filter is_generation_call Fixtures.video_flow.(events) = [SetTimeout 3000].
Proof.
  exact (one_generation_call_routed_by_type Fixtures.env_down
           (Fixtures.page 3 10) (Fixtures.form video) (Fixtures.start 3 10)
           Fixtures.alice eq_refl eq_refl).
Defined.

(** X4.  A submission that passes the guard always ends with the page idle
    (isGenerating false) and with the preview holding the URL of the result
    when the generation succeeded and nothing when it failed, whatever the
    preview held before.  A submission that is refused, or made without a
    signed-in user, leaves the page and the store untouched. *)
Theorem flow_leaves_page_idle :
  forall env c data w,
    (forall u,
        c.(user) = Some u -> refuses c = false ->
        (onSubmit env c data w).(world).(isGenerating) = false
        /\ exists g,
            In (DispatchReturned g) (onSubmit env c data w).(events)
            /\ (onSubmit env c data w).(world).(generatedImage)
               = success_url g)
    /\ (c.(user) = None \/ refuses c = true ->
        (onSubmit env c data w).(world) = w).
Proof.
  intros env c data w. split.
  - intros u Hu Hr.
    destruct (onSubmit_detail env c data w u Hu Hr)
      as (g & w1 & ev & _ & _ & _ & _ & Hgi & ->).
    cbn [events world isGenerating with_isGenerating generatedImage].
    split; [reflexivity|]. exists g. split.
    + apply in_or_app. right. apply in_or_app. right. now left.
    + destruct (success_url g) as [result_url|] eqn:Hg.
      * rewrite (handle_result_saved env c u data g w1 result_url Hg).
        cbn [world]. unfold supabase_update_current_usage,
          supabase_insert_content_item.
        destruct (insert_error env _); destruct (update_error env _ _);
          reflexivity.
      * rewrite (handle_result_failed env c u data g w1 Hg). exact Hgi.
  - intros H. destruct (user c) as [u|] eqn:Hu.
    + destruct H as [H|Hr]; [discriminate|].
      now rewrite (onSubmit_refused env c data w u Hu Hr).
    + now rewrite (onSubmit_signed_out env c data w Hu).
Qed.

Lemma flow_leaves_page_idle_witness :
  Fixtures.failed_flow.(world).(isGenerating) = false
  /\ exists g,
      In (DispatchReturned g) Fixtures.failed_flow.(events)
      /\ Fixtures.failed_flow.(world).(generatedImage) = success_url g.
Proof.
  exact (proj1 (flow_leaves_page_idle Fixtures.env_no_image
                  (Fixtures.page 3 10) (Fixtures.form image)
                  (Fixtures.start 3 10))
           Fixtures.alice eq_refl eq_refl).
Defined.

(** X5.  The usage a flow writes never exceeds the limit it checked: when
    the handler holds a subscription, every usage update of the flow is for
    the signed-in user and writes the captured current_usage plus 1, which is
    at most the captured usage_limit. *)
Theorem written_usage_within_limit :
  forall env c data w q uid v,
    c.(subscription) = Some q ->
    In (SupabaseUpdate uid v) (onSubmit env c data w).(events) ->
    v = q.(current_usage) + 1
    /\ v <= q.(usage_limit)
    /\ exists u, c.(user) = Some u /\ uid = u.(id).
Proof.
  intros env c data w q uid v Hq Hin.
  destruct (user c) as [u|] eqn:Hu.
  - destruct (refuses c) eqn:Hr.
    + rewrite (onSubmit_refused env c data w u Hu Hr) in Hin.
      cbn [events] in Hin. apply in_app_or in Hin.
      destruct Hin as [Hin|Hin];
        [now apply (check_events_quiet c) in Hin | in_trace Hin].
    + destruct (onSubmit_detail env c data w u Hu Hr)
        as (g & w1 & ev & _ & Hev & _ & _ & _ & Hrun).
      rewrite Hrun in Hin. cbn [events] in Hin.
      apply in_app_or in Hin. destruct Hin as [Hin|Hin];
        [now apply (check_events_quiet c) in Hin|].
      apply in_app_or in Hin. destruct Hin as [Hin|Hin];
        [now apply (filter_generation_call_dispatch c data ev Hev) in Hin|].
      destruct Hin as [Hin|Hin]; [discriminate|].
      destruct (success_url g) as [result_url|] eqn:Hg.
      * rewrite (handle_result_saved env c u data g w1 result_url Hg) in Hin.
        cbn [events] in Hin.
        apply write_events_quiet in Hin. destruct Hin as [-> ->].
        rewrite captured_usage_plus_one, Hq.
        unfold refuses in Hr. rewrite Hq in Hr.
        assert (Hlt : ~ q.(current_usage) >= q.(usage_limit)).
        { intros Hge. apply over_limit_spec in Hge. congruence. }
        repeat split; [lia|]. now exists u.
      * rewrite (handle_result_failed env c u data g w1 Hg) in Hin.
        in_trace Hin.
  - rewrite (onSubmit_signed_out env c data w Hu) in Hin. destruct Hin.
Qed.

Lemma written_usage_within_limit_witness :
  4 = 3 + 1 /\ 4 <= 10
  /\ exists u, (Fixtures.page 3 10).(user) = Some u /\ "u1" = u.(id).
Proof.
  apply (written_usage_within_limit Fixtures.env_image (Fixtures.page 3 10)
           (Fixtures.form image) (Fixtures.start 3 10)
           (Fixtures.quota 3 10) "u1" 4).
  - reflexivity.
  - vm_compute. do 4 right. left. reflexivity.
Defined.

Lemma length_append (s1 s2 : string) :
  String.length (s1 ++ s2) = (String.length s1 + String.length s2)%nat.
Proof.
  induction s1 as [|ch s1 IH]; cbn; [reflexivity | now rewrite IH].
Qed.

Lemma optimizePrompt_longer (p : string) (o : GenerationOptions) :
  optimizePrompt p o <> p.
Proof.
  intros H. apply (f_equal String.length) in H.
  unfold optimizePrompt in H. rewrite length_append in H.
  cbn in H. lia.
Qed.

Lemma returned_result_unique env c data u g g' w1 ev :
  ev = [generation_call_of c data]
  \/ ev = [generation_call_of c data;
           ConsoleError "OpenAI Image Generation Error:"] ->
  In (DispatchReturned g')
     (check_events c
        ++ ev
        ++ DispatchReturned g
        :: (handle_result env c u data g w1).(events)) ->
  g' = g.
Proof.
  intros Hev Hin.
  apply in_app_or in Hin. destruct Hin as [Hin|Hin];
    [now apply (check_events_facts c) in Hin|].
  apply in_app_or in Hin. destruct Hin as [Hin|Hin];
    [now apply (filter_generation_call_dispatch c data ev Hev) in Hin|].
  destruct Hin as [Hin|Hin]; [now injection Hin|].
  destruct (success_url g) as [result_url|] eqn:Hg.
  - rewrite (handle_result_saved env c u data g w1 result_url Hg) in Hin.
    cbn [events] in Hin. now apply write_events_facts in Hin.
  - rewrite (handle_result_failed env c u data g w1 Hg) in Hin.
    in_trace Hin.
Qed.

(** X6.  After a successful generation the flow asks for both store writes
    and shows no alert, also when the insert of the content item fails: the
    failure is only logged to the console, the table is left as it was, and
    the usage update is issued all the same. *)
Theorem insert_failure_still_updates_usage :
  forall env c data w u g result_url,
    c.(user) = Some u -> refuses c = false ->
    In (DispatchReturned g) (onSubmit env c data w).(events) ->
    success_url g = Some result_url ->
    exists now,
      In (SupabaseInsert (new_content_item c u data result_url now))
         (onSubmit env c data w).(events)
      /\ In (SupabaseUpdate u.(id) (captured_usage c.(subscription) + 1))
            (onSubmit env c data w).(events)
      /\ existsb is_alert (onSubmit env c data w).(events) = false
      /\ (env.(insert_error) (new_content_item c u data result_url now)
          = None ->
          (onSubmit env c data w).(world).(content_items)
          = (w.(content_items)
               ++ [new_content_item c u data result_url now])%list)
      /\ (env.(insert_error) (new_content_item c u data result_url now)
          <> None ->
          (onSubmit env c data w).(world).(content_items)
          = w.(content_items)
          /\ In (ConsoleError "Error saving content:")
                (onSubmit env c data w).(events)).
Proof.
  intros env c data w u g result_url Hu Hr Hin Hg.
  destruct (onSubmit_detail env c data w u Hu Hr)
    as (g0 & w1 & ev & _ & Hev & Hci & _ & _ & Hrun).
  rewrite Hrun in *. cbn [events world] in *.
  apply (returned_result_unique env c data u g0 g w1 ev Hev) in Hin.
  subst g0.
  rewrite (handle_result_saved env c u data g w1 result_url Hg).
  cbn [events world].
  exists (env.(clock) w1.(clock_reads)).
  set (row := new_content_item c u data result_url
                (env.(clock) w1.(clock_reads))).
  set (v := captured_usage c.(subscription) + 1).
  destruct (write_events_quiet env row u.(id) v)
    as (_ & _ & Hal & _ & _ & Hi & Hup).
  split; [|split; [|split; [|split]]].
  - apply in_or_app. right. apply in_or_app. right. now right.
  - apply in_or_app. right. apply in_or_app. right. now right.
  - rewrite !existsb_app.
    destruct (check_events_quiet c) as (_ & _ & _ & _ & ->).
    destruct (filter_generation_call_dispatch c data ev Hev)
      as (_ & _ & _ & _ & _ & ->).
    cbn [existsb is_alert orb]. exact Hal.
  - intros Hok.
    unfold supabase_update_current_usage, supabase_insert_content_item.
    rewrite Hok. destruct (update_error env _ _); cbn; now rewrite Hci.
  - intros Hfail.
    unfold supabase_update_current_usage, supabase_insert_content_item,
      write_events.
    destruct (insert_error env row) as [e|]; [|congruence].
    split.
    + destruct (update_error env _ _); cbn; exact Hci.
    + apply in_or_app. right. apply in_or_app. right. cbn. tauto.
Qed.

Lemma insert_failure_still_updates_usage_witness :
  exists now,
    In (SupabaseInsert
          (new_content_item (Fixtures.page 3 10) Fixtures.alice
             (Fixtures.form image) "https://cdn.example/img.png" now))
       Fixtures.complete_flow.(events)
    /\ In (SupabaseUpdate "u1" 4) Fixtures.complete_flow.(events).
Proof.
  destruct (insert_failure_still_updates_usage Fixtures.env_image
              (Fixtures.page 3 10) (Fixtures.form image)
              (Fixtures.start 3 10) Fixtures.alice
              {| success := true;
                 url := Some "https://cdn.example/img.png";
                 error := None;
                 result_id := Some "1700000000000" |}
              "https://cdn.example/img.png" eq_refl eq_refl)
    as (now & Hi & Hup & _).
  - vm_compute. do 2 right. left. reflexivity.
  - reflexivity.
  - exists now. split; [exact Hi | exact Hup].
Defined.

(** X7.  The prompt stored with a content item is the text handed to the
    service (the optimized prompt of the page when there is one, else the
    prompt of the form) and the description is the prompt of the form; the
    provider received that stored prompt followed by the style and platform
    descriptors, never the stored prompt itself. *)
Theorem stored_prompt_heads_the_request :
  forall env c data w row params,
    In (SupabaseInsert row) (onSubmit env c data w).(events) ->
    In (OpenAIImagesGenerate params) (onSubmit env c data w).(events) ->
    row.(item_prompt) = JS.or_string c.(optimizedPrompt) data.(form_prompt)
    /\ row.(description) = data.(form_prompt)
    /\ params.(request_prompt)
       = optimizePrompt row.(item_prompt) (options_of c data)
    /\ JS.startsWith params.(request_prompt) row.(item_prompt) = true
    /\ params.(request_prompt) <> row.(item_prompt).
Proof.
  intros env c data w row params Hrow Hpar.
  destruct (user c) as [u|] eqn:Hu.
  - destruct (refuses c) eqn:Hr.
    + rewrite (onSubmit_refused env c data w u Hu Hr) in Hrow.
      cbn [events] in Hrow. apply in_app_or in Hrow.
      destruct Hrow as [Hrow|Hrow];
        [now apply (check_events_quiet c) in Hrow | in_trace Hrow].
    + destruct (onSubmit_detail env c data w u Hu Hr)
        as (g & w1 & ev & _ & Hev & _ & _ & _ & Hrun).
      rewrite Hrun in *. cbn [events] in *.
      destruct (filter_generation_call_dispatch c data ev Hev)
        as (_ & _ & _ & Hnrow & Hpar_ev & _).
      assert (Hp : params = image_request (options_of c data)).
      { apply in_app_or in Hpar. destruct Hpar as [Hpar|Hpar];
          [now apply (check_events_quiet c) in Hpar|].
        apply in_app_or in Hpar. destruct Hpar as [Hpar|Hpar];
          [now apply Hpar_ev|].
        destruct Hpar as [Hpar|Hpar]; [discriminate|].
        destruct (success_url g) as [result_url|] eqn:Hg.
        - rewrite (handle_result_saved env c u data g w1 result_url Hg)
            in Hpar.
          cbn [events] in Hpar. now apply write_events_quiet in Hpar.
        - rewrite (handle_result_failed env c u data g w1 Hg) in Hpar.
          in_trace Hpar. }
      assert (Hr' : exists result_url now,
                 row = new_content_item c u data result_url now).
      { apply in_app_or in Hrow. destruct Hrow as [Hrow|Hrow];
          [now apply (check_events_quiet c) in Hrow|].
        apply in_app_or in Hrow. destruct Hrow as [Hrow|Hrow];
          [now apply Hnrow in Hrow|].
        destruct Hrow as [Hrow|Hrow]; [discriminate|].
        destruct (success_url g) as [result_url|] eqn:Hg.
        - rewrite (handle_result_saved env c u data g w1 result_url Hg)
            in Hrow.
          cbn [events] in Hrow. apply write_events_quiet in Hrow. eauto.
        - rewrite (handle_result_failed env c u data g w1 Hg) in Hrow.
          in_trace Hrow. }
      destruct Hr' as (result_url & now & ->). subst params.
      cbn [item_prompt description new_content_item request_prompt
           image_request options_of prompt].
      repeat split.
      * unfold optimizePrompt. apply startsWith_append.
      * apply optimizePrompt_longer.
  - rewrite (onSubmit_signed_out env c data w Hu) in Hrow. destruct Hrow.
Qed.

Lemma stored_prompt_heads_the_request_witness :
  JS.startsWith
    (optimizePrompt "A modern tech startup banner with gradient"
       (Fixtures.request "A modern tech startup banner with gradient"))
    "A modern tech startup banner with gradient" = true.
Proof.
  refine (proj1 (proj2 (proj2 (proj2
            (stored_prompt_heads_the_request Fixtures.env_image
               (Fixtures.page 3 10) (Fixtures.form image)
               (Fixtures.start 3 10)
               (new_content_item (Fixtures.page 3 10) Fixtures.alice
                  (Fixtures.form image) "https://cdn.example/img.png"
                  1700000000001)
               (image_request
                  (Fixtures.request
                     "A modern tech startup banner with gradient"))
               _ _))))).
  - vm_compute. do 3 right. left. reflexivity.
  - vm_compute. do 1 right. left. reflexivity.
Defined.

(** ** The optimized prompt is recoverable *)

Lemma append_cancel_r (p q s : string) : p ++ s = q ++ s -> p = q.
Proof.
  revert q. induction p as [|a p IH]; intros [|b q] H; cbn in H.
  - reflexivity.
  - apply (f_equal String.length) in H. cbn in H.
    rewrite length_append in H. lia.
  - apply (f_equal String.length) in H. cbn in H.
    rewrite length_append in H. lia.
  - injection H as -> H. f_equal. now apply IH.
Qed.

(** X8.  For one style and one platform, two different raw prompts never
    give the same optimized prompt: the raw prompt can be read back from the
    text sent to the provider. *)
Theorem optimizePrompt_injective :
  forall p p' o o',
    o'.(style) = o.(style) -> o'.(platform) = o.(platform) ->
    optimizePrompt p o = optimizePrompt p' o' ->
    p = p'.
Proof.
  intros p p' o o' Hs Hp H. unfold optimizePrompt in H.
  rewrite Hs, Hp in H. exact (append_cancel_r _ _ _ H).
Qed.

Lemma optimizePrompt_injective_witness :
  "a banner" = "a banner".
Proof.
  exact (optimizePrompt_injective "a banner" "a banner"
           (Fixtures.request "x") (Fixtures.request "y")
           eq_refl eq_refl eq_refl).
Defined.

(** ** The text optimization *)

Lemma optimizeTextPrompt_rejected S chat trim prompt s e :
  chat (chat_request prompt) = Rejected e ->
  optimizeTextPrompt S chat trim prompt s
  = {| Task.result := Normal prompt;
       Task.state := s;
       Task.log := [ChatCompletionsCreate (chat_request prompt);
                    TextConsoleError "OpenAI Text Optimization Error:"] |}.
Proof.
  intros H. unfold optimizeTextPrompt.
  cbn [catch bind ret MonadExc_Task Monad_Task].
  unfold Task.try_catch, Task.and_then, Task.await. rewrite H. reflexivity.
Qed.

Lemma optimizeTextPrompt_fulfilled S chat trim prompt s response :
  chat (chat_request prompt) = Fulfilled response ->
  optimizeTextPrompt S chat trim prompt s
  = {| Task.result :=
         Normal (JS.or_undefined (first_content_trimmed trim response)
                                 prompt);
       Task.state := s;
       Task.log := [ChatCompletionsCreate (chat_request prompt)] |}.
Proof.
  intros H. unfold optimizeTextPrompt.
  cbn [catch bind ret MonadExc_Task Monad_Task].
  unfold Task.try_catch, Task.and_then, Task.await. rewrite H. reflexivity.
Qed.

Lemma or_undefined_truthy (a : option string) (b : string) :
  JS.or_undefined a b = b \/ JS.truthy (JS.or_undefined a b) = true.
Proof.
  destruct a as [s|]; cbn; [|now left].
  unfold JS.or_string. destruct (JS.truthy s) eqn:H; [now right | now left].
Qed.

(** What a call of the text optimization comes to. *)
Lemma optimizeTextPrompt_run S chat trim prompt s :
  exists r l,
    optimizeTextPrompt S chat trim prompt s
    = {| Task.result := Normal r; Task.state := s; Task.log := l |}
    /\ (r = prompt \/ JS.truthy r = true)
    /\ filter is_chat_request l
       = [ChatCompletionsCreate (chat_request prompt)].
Proof.
  destruct (chat (chat_request prompt)) as [response|e] eqn:H.
  - rewrite (optimizeTextPrompt_fulfilled S chat trim prompt s response H).
    do 2 eexists. split; [reflexivity|].
    split; [apply or_undefined_truthy | reflexivity].
  - rewrite (optimizeTextPrompt_rejected S chat trim prompt s e H).
    do 2 eexists. split; [reflexivity|]. split; [now left | reflexivity].
Qed.

(** X9.  The text optimization never throws and never touches the state of
    its caller.  It sends exactly one completion request.  It returns the
    prompt it was given when the request fails, when the answer has no
    choice, message or content, and when the content is empty once trimmed;
    otherwise it returns the trimmed content.  So for a non-empty prompt the
    text it returns is never empty. *)
Theorem optimizeTextPrompt_falls_back_to_prompt :
  forall (S : Type) chat trim prompt (s : S),
    let o := optimizeTextPrompt S chat trim prompt s in
    o.(Task.state) = s
    /\ (exists r,
           o.(Task.result) = Normal r
           /\ (r = prompt \/ JS.truthy r = true)
           /\ (JS.truthy prompt = true -> JS.truthy r = true))
    /\ filter is_chat_request o.(Task.log)
       = [ChatCompletionsCreate (chat_request prompt)]
    /\ (forall e, chat (chat_request prompt) = Rejected e ->
                  o.(Task.result) = Normal prompt)
    /\ (forall response,
           chat (chat_request prompt) = Fulfilled response ->
           o.(Task.result)
           = Normal (if JS.truthy_opt (first_content_trimmed trim response)
                     then JS.or_undefined
                            (first_content_trimmed trim response) ""
                     else prompt)).
Proof.
  intros S chat trim prompt s o. unfold o.
  destruct (optimizeTextPrompt_run S chat trim prompt s)
    as (r & l & Hrun & Hr & Hl).
  rewrite Hrun. cbn [Task.state Task.result Task.log].
  split; [reflexivity|]. split; [|split; [exact Hl|split]].
  - exists r. split; [reflexivity|]. split; [exact Hr|].
    intros Hp. destruct Hr as [-> | Hr]; assumption.
  - intros e He.
    rewrite (optimizeTextPrompt_rejected S chat trim prompt s e He) in Hrun.
    now injection Hrun as <- _.
  - intros response Hf.
    rewrite (optimizeTextPrompt_fulfilled S chat trim prompt s response Hf)
      in Hrun.
    injection Hrun as <- _. f_equal.
    destruct (first_content_trimmed trim response) as [text|]; cbn;
      [|reflexivity].
    unfold JS.or_string. now destruct (JS.truthy text).
Qed.

Lemma optimizeTextPrompt_falls_back_to_prompt_witness :
  (optimizeTextPrompt unit TextFixtures.chat_down TextFixtures.trim_nothing
     "A modern tech startup banner" tt).(Task.result)
  = Normal "A modern tech startup banner".
Proof.
  exact (proj1 (proj2 (proj2 (proj2
           (optimizeTextPrompt_falls_back_to_prompt unit
              TextFixtures.chat_down TextFixtures.trim_nothing
              "A modern tech startup banner" tt))))
           {| JS.message := "Connection error." |} eq_refl).
Defined.

(** ** The idle callback of the generator page *)

Lemma truthy_of_length (p : string) :
  (0 < String.length p)%nat -> JS.truthy p = true.
Proof. destruct p; cbn; [lia | reflexivity]. Qed.

Lemma auto_optimize_skips chat trim watchPrompt op :
  watchPrompt = None
  \/ (exists p, watchPrompt = Some p /\ (String.length p <= 10)%nat) ->
  auto_optimize chat trim watchPrompt op
  = {| Task.result := Normal tt; Task.state := op; Task.log := [] |}.
Proof.
  intros [-> | (p & -> & Hp)]; [reflexivity|].
  unfold auto_optimize.
  destruct (Nat.ltb_spec 10 (String.length p)) as [H|_]; [lia|].
  rewrite andb_false_r. reflexivity.
Qed.

Lemma auto_optimize_runs chat trim p op :
  (10 < String.length p)%nat ->
  exists r l,
    auto_optimize chat trim (Some p) op
    = {| Task.result := Normal tt; Task.state := r; Task.log := l |}
    /\ JS.truthy r = true
    /\ filter is_chat_request l = [ChatCompletionsCreate (chat_request p)].
Proof.
  intros Hp. unfold auto_optimize.
  rewrite truthy_of_length by lia.
  destruct (Nat.ltb_spec 10 (String.length p)) as [_|H]; [|lia].
  cbn [andb bind put Monad_Task MonadState_Task].
  unfold Task.and_then.
  destruct (optimizeTextPrompt_run string chat trim p op)
    as (r & l & -> & Hr & Hl).
  exists r, l. cbn. rewrite app_nil_r. repeat split; [|exact Hl].
  destruct Hr as [-> | Hr]; [apply truthy_of_length; lia | exact Hr].
Qed.

(** X10.  The idle callback optimizes only prompts longer than 10
    characters.  For such a prompt it sends one completion request and
    leaves a non-empty optimized prompt; for a prompt of at most 10
    characters, or when the field has no value yet, it sends nothing and
    leaves the optimized prompt as it was.  It never throws. *)
Theorem auto_optimize_threshold :
  forall chat trim watchPrompt op,
    let o := auto_optimize chat trim watchPrompt op in
    o.(Task.result) = Normal tt
    /\ (watchPrompt = None -> o.(Task.log) = [] /\ o.(Task.state) = op)
    /\ (forall p,
           watchPrompt = Some p -> (String.length p <= 10)%nat ->
           o.(Task.log) = [] /\ o.(Task.state) = op)
    /\ (forall p,
           watchPrompt = Some p -> (10 < String.length p)%nat ->
           filter is_chat_request o.(Task.log)
           = [ChatCompletionsCreate (chat_request p)]
           /\ JS.truthy o.(Task.state) = true).
Proof.
  intros chat trim watchPrompt op o. unfold o.
  split; [|split; [|split]].
  - destruct watchPrompt as [p|]; [|reflexivity].
    destruct (Nat.ltb_spec 10 (String.length p)) as [H|H].
    + destruct (auto_optimize_runs chat trim p op H) as (r & l & -> & _).
      reflexivity.
    + rewrite auto_optimize_skips; [reflexivity|]. right. now exists p.
  - intros ->. split; reflexivity.
  - intros p -> Hp.
    rewrite auto_optimize_skips; [split; reflexivity|]. right. now exists p.
  - intros p -> Hp.
    destruct (auto_optimize_runs chat trim p op Hp)
      as (r & l & -> & Hr & Hl).
    split; assumption.
Qed.

Lemma auto_optimize_threshold_witness :
  filter is_chat_request
    (auto_optimize TextFixtures.chat_rewrites TextFixtures.trim_nothing
       (Some "A modern tech startup banner") "").(Task.log)
  = [ChatCompletionsCreate (chat_request "A modern tech startup banner")]
  /\ (auto_optimize TextFixtures.chat_rewrites TextFixtures.trim_nothing
        (Some "Red shoes.") "earlier text").(Task.state)
     = "earlier text".
Proof.
  split.
  - refine (proj1 (proj2 (proj2 (proj2
              (auto_optimize_threshold TextFixtures.chat_rewrites
                 TextFixtures.trim_nothing
                 (Some "A modern tech startup banner") "")))
              "A modern tech startup banner" eq_refl _)).
    cbn. lia.
  - refine (proj2 (proj1 (proj2 (proj2
              (auto_optimize_threshold TextFixtures.chat_rewrites
                 TextFixtures.trim_nothing (Some "Red shoes.")
                 "earlier text")))
              "Red shoes." eq_refl _)).
    cbn. lia.
Defined.

(** X11.  A non-empty optimized prompt takes the place of the typed prompt
    and is not reset by a short edit: after the idle callback has seen a
    prompt of at most 10 characters (or no value), the page still holds the
    earlier optimized prompt, and an image submission from that page sends
    the provider the descriptors appended to that earlier text, whatever the
    prompt of the form is. *)
Theorem short_edit_keeps_earlier_optimized_prompt :
  forall env chat trim watchPrompt op c data w u,
    JS.truthy op = true ->
    watchPrompt = None
    \/ (exists p, watchPrompt = Some p /\ (String.length p <= 10)%nat) ->
    c.(optimizedPrompt)
    = (auto_optimize chat trim watchPrompt op).(Task.state) ->
    c.(user) = Some u -> refuses c = false ->
    is_video data.(form_type) = false ->
    filter is_generation_call (onSubmit env c data w).(events)
    = [OpenAIImagesGenerate
         {| model := "dall-e-3";
            request_prompt :=
              op ++ ". Style: " ++ stylePrompts data.(form_style)
                 ++ ". Platform: " ++ platformPrompts data.(form_platform)
                 ++ ". " ++ marketing_suffix;
            size := "1024x1024";
            quality := "standard";
            n := 1 |}].
Proof.
  intros env chat trim watchPrompt op c data w u Hop Hshort Hc Hu Hr Hv.
  rewrite (auto_optimize_skips chat trim watchPrompt op Hshort) in Hc.
  cbn [Task.state] in Hc.
  rewrite (onSubmit_generation_calls env c data w u Hu Hr).
  unfold generation_call_of. rewrite Hv.
  unfold image_request, options_of, optimizePrompt.
  cbn [prompt style platform]. rewrite Hc.
  unfold JS.or_string. rewrite Hop. reflexivity.
Qed.

Lemma short_edit_keeps_earlier_optimized_prompt_witness :
  filter is_generation_call
    (onSubmit Fixtures.env_image
       (TextFixtures.page_with "Sleek gradient banner for a tech startup")
       TextFixtures.short_form (Fixtures.start 3 10)).(events)
  = [OpenAIImagesGenerate
       {| model := "dall-e-3";
          request_prompt :=
            "Sleek gradient banner for a tech startup. Style: photorealistic, high detail, professional photography. Platform: Instagram style, square format, visually appealing. Professional marketing content, high quality, brand appropriate.";
          size := "1024x1024";
          quality := "standard";
          n := 1 |}].
Proof.
  refine (short_edit_keeps_earlier_optimized_prompt Fixtures.env_image
            TextFixtures.chat_rewrites TextFixtures.trim_nothing
            (Some "Red shoes.")
            "Sleek gradient banner for a tech startup"
            (TextFixtures.page_with
               "Sleek gradient banner for a tech startup")
            TextFixtures.short_form (Fixtures.start 3 10) Fixtures.alice
            eq_refl _ eq_refl eq_refl eq_refl eq_refl).
  right. exists "Red shoes.". split; [reflexivity | cbn; lia].
Defined.

(** ** The library page: the filter buttons *)

Lemma includes_after_removal (v x : string) (l : list string) :
  Library.array_includes
    (filter (fun f => negb (String.eqb f v)) l) x
  = if String.eqb x v then false else Library.array_includes l x.
Proof.
  unfold Library.array_includes.
  induction l as [|a l IH]; cbn.
  - now destruct (String.eqb x v).
  - destruct (String.eqb_spec a v) as [->|Hav]; cbn.
    + rewrite IH. destruct (String.eqb_spec x v) as [->|Hxv]; reflexivity.
    + rewrite IH. destruct (String.eqb_spec x v) as [->|Hxv];
        [|reflexivity].
      destruct (String.eqb_spec v a); [congruence | reflexivity].
Qed.

Lemma toggleFilter_includes (ft v x : string) (l : list string) :
  Library.array_includes (Library.toggleFilter ft v l) x
  = if String.eqb x v
    then negb (Library.array_includes l v)
    else Library.array_includes l x.
Proof.
  unfold Library.toggleFilter.
  destruct (Library.array_includes l v) eqn:Hv.
  - apply includes_after_removal.
  - unfold Library.array_includes in *. rewrite existsb_app. cbn.
    destruct (String.eqb_spec x v) as [->|Hxv].
    + rewrite Hv. reflexivity.
    + now rewrite !orb_false_r.
Qed.

Lemma removal_of_absent (v : string) (l : list string) :
  Library.array_includes l v = false ->
  filter (fun f => negb (String.eqb f v)) l = l.
Proof.
  unfold Library.array_includes.
  induction l as [|a l IH]; cbn; [reflexivity|].
  intros H. apply orb_false_iff in H. destruct H as [Ha Hl].
  rewrite String.eqb_sym in Ha. rewrite Ha. cbn. now rewrite IH.
Qed.

Lemma array_includes_In (l : list string) (v : string) :
  Library.array_includes l v = true <-> In v l.
Proof.
  unfold Library.array_includes. rewrite existsb_exists. split.
  - intros (x & Hin & Heq). apply String.eqb_eq in Heq. now subst.
  - intros Hin. exists v. split; [exact Hin | apply String.eqb_refl].
Qed.

(** X12.  A click on a filter button flips the membership of its value in
    the selection and of no other value. *)
Theorem toggleFilter_flips_one_value :
  forall filterType value other currentFilters,
    Library.array_includes
      (Library.toggleFilter filterType value currentFilters) other
    = if String.eqb other value
      then negb (Library.array_includes currentFilters value)
      else Library.array_includes currentFilters other.
Proof.
  intros. apply toggleFilter_includes.
Qed.

(** X13.  Two clicks on the same filter button give back the same
    selection: the same values are selected, and the list itself is restored
    when the value was not selected at first.  A selection without repeated
    values stays without repeated values. *)
Theorem toggleFilter_twice :
  forall filterType value currentFilters,
    let twice :=
      Library.toggleFilter filterType value
        (Library.toggleFilter filterType value currentFilters) in
    (forall other,
        Library.array_includes twice other
        = Library.array_includes currentFilters other)
    /\ (Library.array_includes currentFilters value = false ->
        twice = currentFilters)
    /\ (NoDup currentFilters ->
        NoDup (Library.toggleFilter filterType value currentFilters)).
Proof.
  intros ft v l twice. split; [|split].
  - intros x. unfold twice. rewrite !toggleFilter_includes.
    rewrite String.eqb_refl.
    destruct (String.eqb_spec x v) as [->|Hxv];
      [apply negb_involutive | reflexivity].
  - intros Hv. unfold twice, Library.toggleFilter. rewrite Hv.
    assert (Hin : Library.array_includes (l ++ [v]) v = true).
    { apply array_includes_In, in_or_app. right. now left. }
    rewrite Hin, filter_app, (removal_of_absent v l Hv). cbn.
    rewrite String.eqb_refl. cbn. apply app_nil_r.
  - intros Hnd. unfold Library.toggleFilter.
    destruct (Library.array_includes l v) eqn:Hv.
    + now apply NoDup_filter.
    + apply NoDup_app; [exact Hnd | repeat constructor; intros [] |].
      intros x Hx [<-|[]].
      apply array_includes_In in Hx. congruence.
Qed.

Lemma toggleFilter_twice_witness :
  Library.toggleFilter "type" "video"
    (Library.toggleFilter "type" "video" ["image"])
  = ["image"].
Proof.
  exact (proj1 (proj2 (toggleFilter_twice "type" "video" ["image"]))
           eq_refl).
Defined.

(** ** The library page: the list shown *)

Lemma includes_empty (s : string) : JS.includes s "" = true.
Proof. destruct s; reflexivity. Qed.

Lemma filter_all {A} (f : A -> bool) (l : list A) :
  (forall x, In x l -> f x = true) -> filter f l = l.
Proof.
  induction l as [|a l IH]; cbn; [reflexivity|].
  intros H. rewrite (H a) by now left.
  f_equal. apply IH. intros x Hx. apply H. now right.
Qed.

Lemma types_complete (t : ContentType) :
  Library.array_includes Library.types (ContentType_text t) = true.
Proof. destruct t; reflexivity. Qed.

Lemma platforms_complete (p : Platform) :
  Library.array_includes Library.platforms (Platform_text p) = true.
Proof. destruct p; reflexivity. Qed.

Lemma styles_complete (s : Style) :
  Library.array_includes Library.styles (Style_text s) = true.
Proof. destruct s; reflexivity. Qed.

(** X14.  In each of the three filter groups, selecting nothing shows the
    same items as selecting every value of the group. *)
Theorem empty_selection_is_full_selection :
  forall toLowerCase st,
    Library.filteredItems toLowerCase (Library.with_selectedTypes [] st)
    = Library.filteredItems toLowerCase
        (Library.with_selectedTypes Library.types st)
    /\ Library.filteredItems toLowerCase
         (Library.with_selectedPlatforms [] st)
       = Library.filteredItems toLowerCase
           (Library.with_selectedPlatforms Library.platforms st)
    /\ Library.filteredItems toLowerCase (Library.with_selectedStyles [] st)
       = Library.filteredItems toLowerCase
           (Library.with_selectedStyles Library.styles st).
Proof.
  intros lower st. unfold Library.filteredItems. repeat split;
    apply filter_ext; intros item;
    unfold Library.matchesSearch, Library.matchesType,
      Library.matchesPlatform, Library.matchesStyle;
    cbn [Library.with_selectedTypes Library.with_selectedPlatforms
         Library.with_selectedStyles Library.selectedTypes
         Library.selectedPlatforms Library.selectedStyles
         Library.searchTerm Library.contentItems length Nat.eqb orb].
  - now rewrite types_complete.
  - now rewrite platforms_complete.
  - now rewrite styles_complete.
Qed.

(** X15.  With an empty search box and no filter selected the page lists
    every item, in the order of the list, provided lower-casing maps the
    empty string to itself. *)
Theorem no_search_no_filter_shows_all :
  forall toLowerCase st,
    toLowerCase "" = "" ->
    st.(Library.searchTerm) = "" ->
    st.(Library.selectedTypes) = [] ->
    st.(Library.selectedPlatforms) = [] ->
    st.(Library.selectedStyles) = [] ->
    Library.filteredItems toLowerCase st = st.(Library.contentItems).
Proof.
  intros lower st Hl Hs Ht Hp Hy. unfold Library.filteredItems.
  apply filter_all. intros item _.
  unfold Library.matchesSearch, Library.matchesType,
    Library.matchesPlatform, Library.matchesStyle.
  rewrite Hs, Ht, Hp, Hy, Hl, includes_empty. reflexivity.
Qed.

Lemma no_search_no_filter_shows_all_witness :
  Library.filteredItems LibraryFixtures.lower_ascii LibraryFixtures.page
  = [LibraryFixtures.banner_item; LibraryFixtures.video_item].
Proof.
  exact (no_search_no_filter_shows_all LibraryFixtures.lower_ascii
           LibraryFixtures.page eq_refl eq_refl eq_refl eq_refl eq_refl).
Defined.

(** ** The library page: deleting an item *)

Lemma deleteItem_declined env itemId st :
  env.(Library.confirm_answer) = false ->
  Library.deleteItem env itemId st
  = {| Task.result := Normal tt;
       Task.state := st;
       Task.log :=
         [Library.Confirm "Are you sure you want to delete this item?"] |}.
Proof. intros H. task_run. rewrite H. reflexivity. Qed.

Lemma deleteItem_failed env itemId st e :
  env.(Library.confirm_answer) = true ->
  env.(Library.delete_error) itemId = Some e ->
  Library.deleteItem env itemId st
  = {| Task.result := Normal tt;
       Task.state := st;
       Task.log :=
         [Library.Confirm "Are you sure you want to delete this item?";
          Library.SupabaseDelete itemId;
          Library.ConsoleError "Error deleting item:";
          Library.Alert "Error deleting item"] |}.
Proof. intros Hc He. task_run. rewrite Hc, He. reflexivity. Qed.

Lemma deleteItem_done env itemId st :
  env.(Library.confirm_answer) = true ->
  env.(Library.delete_error) itemId = None ->
  Library.deleteItem env itemId st
  = {| Task.result := Normal tt;
       Task.state :=
         (if Library.selected_is itemId st
          then Library.with_selectedItem None
          else fun s => s)
           (Library.with_contentItems
              (filter (kept itemId) st.(Library.contentItems)) st);
       Task.log :=
         [Library.Confirm "Are you sure you want to delete this item?";
          Library.SupabaseDelete itemId] |}.
Proof.
  intros Hc He. task_run. rewrite Hc, He. cbn [negb].
  unfold Library.selected_is.
  cbn [Library.selectedItem Library.with_contentItems].
  destruct (Library.selectedItem st) as [item|]; [|reflexivity].
  destruct (String.eqb (Library.id item) itemId); reflexivity.
Qed.

Lemma kept_spec (itemId : string) (item : Library.ContentItem) :
  kept itemId item = true <-> item.(Library.id) <> itemId.
Proof.
  unfold kept. destruct (String.eqb_spec item.(Library.id) itemId);
    cbn; split; congruence.
Qed.

(** X16.  Deleting an item never throws.  When the user declines the
    confirmation nothing is sent to the store and the page is unchanged.
    When the store reports an error the page is unchanged and the user is
    alerted.  When the store deletes, the list loses exactly the items with
    that id, the others stay in their order, and no alert is shown. *)
Theorem deleteItem_outcomes :
  forall env itemId st,
    let o := Library.deleteItem env itemId st in
    o.(Task.result) = Normal tt
    /\ (env.(Library.confirm_answer) = false ->
        o.(Task.state) = st
        /\ o.(Task.log)
           = [Library.Confirm "Are you sure you want to delete this item?"])
    /\ (forall e,
           env.(Library.confirm_answer) = true ->
           env.(Library.delete_error) itemId = Some e ->
           o.(Task.state) = st
           /\ existsb is_library_alert o.(Task.log) = true)
    /\ (env.(Library.confirm_answer) = true ->
        env.(Library.delete_error) itemId = None ->
        o.(Task.state).(Library.contentItems)
        = filter (fun item => negb (String.eqb item.(Library.id) itemId))
                 st.(Library.contentItems)
        /\ (forall item,
               In item o.(Task.state).(Library.contentItems)
               <-> In item st.(Library.contentItems)
                   /\ item.(Library.id) <> itemId)
        /\ existsb is_library_alert o.(Task.log) = false).
Proof.
  intros env itemId st o. unfold o.
  destruct (Library.confirm_answer env) eqn:Hc.
  - destruct (Library.delete_error env itemId) as [e|] eqn:He.
    + rewrite (deleteItem_failed env itemId st e Hc He).
      cbn [Task.result Task.state Task.log].
      split; [reflexivity|]. split; [discriminate|].
      split; [intros e' _ _; split; reflexivity|].
      intros _ H. discriminate H.
    + rewrite (deleteItem_done env itemId st Hc He).
      cbn [Task.result Task.state Task.log].
      assert (Hci :
                Library.contentItems
                  ((if Library.selected_is itemId st
                    then Library.with_selectedItem None
                    else fun s => s)
                     (Library.with_contentItems
                        (filter (kept itemId) st.(Library.contentItems))
                        st))
                = filter (kept itemId) st.(Library.contentItems))
        by now destruct (Library.selected_is itemId st).
      split; [reflexivity|]. split; [discriminate|].
      split; [intros e' _ H; discriminate H|]. intros _ _. rewrite Hci.
      split; [reflexivity|]. split; [|reflexivity].
      intros item. rewrite filter_In, kept_spec. tauto.
  - rewrite (deleteItem_declined env itemId st Hc).
    cbn [Task.result Task.state Task.log].
    split; [reflexivity|]. split; [intros _; split; reflexivity|].
    split; [intros e' H; discriminate H | intros H; discriminate H].
Qed.

Lemma deleteItem_outcomes_witness :
  (Library.deleteItem LibraryFixtures.env_ok "c2" LibraryFixtures.page)
    .(Task.state).(Library.contentItems)
  = [LibraryFixtures.banner_item]
  /\ (Library.deleteItem LibraryFixtures.env_failing "c2"
        LibraryFixtures.page).(Task.state)
     = LibraryFixtures.page
  /\ (Library.deleteItem LibraryFixtures.env_declined "c2"
        LibraryFixtures.page).(Task.state)
     = LibraryFixtures.page.
Proof.
  split; [|split].
  - exact (proj1 (proj2 (proj2 (proj2
             (deleteItem_outcomes LibraryFixtures.env_ok "c2"
                LibraryFixtures.page)))
             eq_refl eq_refl)).
  - exact (proj1 (proj1 (proj2 (proj2
             (deleteItem_outcomes LibraryFixtures.env_failing "c2"
                LibraryFixtures.page)))
             {| pg_message := "denied" |} eq_refl eq_refl)).
  - exact (proj1 (proj1 (proj2
             (deleteItem_outcomes LibraryFixtures.env_declined "c2"
                LibraryFixtures.page))
             eq_refl)).
Defined.



Lemma filter_swap {A} (f g : A -> bool) (l : list A) :
  filter f (filter g l) = filter g (filter f l).
Proof.
  induction l as [|a l IH]; cbn; [reflexivity|].
  destruct (f a) eqn:Hf; destruct (g a) eqn:Hg; cbn;
    rewrite ?Hf, ?Hg, IH; reflexivity.
Qed.

(** X18.  A delete that the store carried out removes the item from the
    list shown, under any search and any filters, and changes nothing else
    in it: the list shown afterwards is the list shown before without the
    items of that id. *)
Theorem deleteItem_updates_shown_list :
  forall toLowerCase env itemId st,
    env.(Library.confirm_answer) = true ->
    env.(Library.delete_error) itemId = None ->
    Library.filteredItems toLowerCase
      (Library.deleteItem env itemId st).(Task.state)
    = filter (fun item => negb (String.eqb item.(Library.id) itemId))
             (Library.filteredItems toLowerCase st).
Proof.
  intros lower env itemId st Hc He.
  rewrite (deleteItem_done env itemId st Hc He). cbn [Task.state].
  unfold Library.filteredItems.
  fold (kept itemId).
  rewrite filter_swap.
  destruct (Library.selected_is itemId st);
    cbn [Library.contentItems Library.with_selectedItem
         Library.with_contentItems];
    apply filter_ext; intros item; reflexivity.
Qed.

Lemma deleteItem_updates_shown_list_witness :
  Library.filteredItems LibraryFixtures.lower_ascii
    (Library.deleteItem LibraryFixtures.env_ok "c2" LibraryFixtures.page)
      .(Task.state)
  = filter (fun item => negb (String.eqb item.(Library.id) "c2"))
           (Library.filteredItems LibraryFixtures.lower_ascii
              LibraryFixtures.page).
Proof.
  exact (deleteItem_updates_shown_list LibraryFixtures.lower_ascii
           LibraryFixtures.env_ok "c2" LibraryFixtures.page
           eq_refl eq_refl).
Defined.

(** ** The library page: loading the items *)

(** X19.  Loading the items never throws.  For a signed-in user it sends
    one select and always ends with loading false: with the rows of the
    answer as the list (the empty list when the answer has no data), or,
    when the store reports an error, with the list as it was and the error
    on the console only.  Without a user it does nothing at all, so a page
    that is loading stays loading. *)
Theorem fetchContentItems_outcomes :
  forall env user st,
    let o := Library.fetchContentItems env user st in
    o.(Task.result) = Normal tt
    /\ (user = None -> o.(Task.state) = st /\ o.(Task.log) = [])
    /\ (forall u,
           user = Some u ->
           let response := env.(Library.select_response) u.(id) in
           o.(Task.state).(Library.loading) = false
           /\ existsb is_library_alert o.(Task.log) = false
           /\ (response.(Library.select_error) = None ->
               o.(Task.state)
               = Library.with_loading false
                   (Library.with_contentItems
                      match response.(Library.select_data) with
                      | Some rows => rows
                      | None => []
                      end st)
               /\ o.(Task.log) = [Library.SupabaseSelect u.(id)])
           /\ (response.(Library.select_error) <> None ->
               o.(Task.state) = Library.with_loading false st
               /\ o.(Task.log)
                  = [Library.SupabaseSelect u.(id);
                     Library.ConsoleError "Error fetching content items:"])).
Proof.
  intros env user st o. unfold o. destruct user as [u|].
  - destruct (Library.select_error (Library.select_response env (id u)))
      as [e|] eqn:He; task_run; unfold id_of_user; rewrite He; task_run.
    + split; [reflexivity|]. split; [discriminate|].
      intros u' [= <-]. cbv zeta. rewrite He.
      split; [reflexivity|]. split; [reflexivity|].
      split; [discriminate|]. intros _. split; reflexivity.
    + split; [reflexivity|]. split; [discriminate|].
      intros u' [= <-]. cbv zeta. rewrite He.
      split; [reflexivity|]. split; [reflexivity|].
      split; [intros _; split; reflexivity | congruence].
  - split; [reflexivity|]. split; [intros _; split; reflexivity|].
    discriminate.
Qed.

Lemma fetchContentItems_outcomes_witness :
  (Library.fetchContentItems LibraryFixtures.env_failing
     (Some Fixtures.alice) LibraryFixtures.page).(Task.state)
  = Library.with_loading false LibraryFixtures.page
  /\ (Library.fetchContentItems LibraryFixtures.env_ok None
        LibraryFixtures.page).(Task.state)
     = LibraryFixtures.page.
Proof.
  split.
  - refine (proj1 (proj2 (proj2 (proj2 (proj2 (proj2
              (fetchContentItems_outcomes LibraryFixtures.env_failing
                 (Some Fixtures.alice) LibraryFixtures.page))
              Fixtures.alice eq_refl))) _)).
    discriminate.
  - exact (proj1 (proj1 (proj2
             (fetchContentItems_outcomes LibraryFixtures.env_ok None
                LibraryFixtures.page))
             eq_refl)).
Defined.

(** ** The library page: downloading an item *)

(** X20.  A download never throws and never changes the page.  When the
    file is fetched, the browser is given one download, named
    "fastad-<title>-<id>" with the extension ".mp4" for a video and ".png"
    for every other type; when the fetch fails nothing is downloaded and the
    user is alerted. *)
Theorem downloadItem_outcomes :
  forall env item st,
    let o := Library.downloadItem env item st in
    o.(Task.result) = Normal tt
    /\ o.(Task.state) = st
    /\ (forall object_url,
           env.(Library.fetch_object_url) item.(Library.output_url)
           = Fulfilled object_url ->
           o.(Task.log)
           = [Library.Fetch item.(Library.output_url);
              Library.AnchorClick object_url
                ("fastad-" ++ item.(Library.title) ++ "-"
                   ++ item.(Library.id)
                   ++ (if is_video item.(Library.type)
                       then ".mp4" else ".png"));
              Library.RevokeObjectURL object_url])
    /\ (forall e,
           env.(Library.fetch_object_url) item.(Library.output_url)
           = Rejected e ->
           existsb is_anchor_click o.(Task.log) = false
           /\ existsb is_library_alert o.(Task.log) = true)
    /\ JS.endsWith (Library.download_name item)
         (if is_video item.(Library.type) then ".mp4" else ".png")
       = true.
Proof.
  intros env item st o. unfold o. task_run.
  destruct (Library.fetch_object_url env (Library.output_url item))
    as [object_url|e]; cbn [Task.result Task.state Task.log app].
  - split; [reflexivity|]. split; [reflexivity|]. split.
    + intros ? [= <-]. unfold Library.download_name.
      destruct (is_video (Library.type item)); reflexivity.
    + split; [discriminate|].
      unfold Library.download_name.
      destruct (is_video (Library.type item));
        do 4 apply endsWith_skip; reflexivity.
  - split; [reflexivity|]. split; [reflexivity|].
    split; [discriminate|]. split; [intros ? _; split; reflexivity|].
    unfold Library.download_name.
    destruct (is_video (Library.type item));
      do 4 apply endsWith_skip; reflexivity.
Qed.

Lemma downloadItem_outcomes_witness :
  (Library.downloadItem LibraryFixtures.env_ok LibraryFixtures.video_item
     LibraryFixtures.page).(Task.log)
  = [Library.Fetch "https://cdn.example/c2";
     Library.AnchorClick "blob:1" "fastad-Generated video-c2.mp4";
     Library.RevokeObjectURL "blob:1"].
Proof.
  exact (proj1 (proj2 (proj2
           (downloadItem_outcomes LibraryFixtures.env_ok
              LibraryFixtures.video_item LibraryFixtures.page)))
           "blob:1" eq_refl).
Defined.
